(** * MoodMate: the emotion-estimation pipeline, its remote classifier route
      and the suggestion provider

    A shallow embedding of
    - [src/client/components/moodmate/CameraCapture.tsx]
      ([getTopEmotion], [captureAndDetect]),
    - [src/server/routes/openai-classify.ts] ([handleOpenAIClassify]),
    - the [EmotionResult] component (its [run] effect),
    followed by the properties of the specification that concern them.

    JavaScript numbers are IEEE-754 binary64 values: they are modelled by
    Rocq's primitive [float], whose operations are the same binary64
    operations, so that thresholds, clamps, sums and quotients are the ones
    the program computes. *)

From Stdlib Require Import Floats ZArith List String Ascii Bool Lia.
From Stdlib Require Uint63.
Import ListNotations.

#[local] Set Warnings "-inexact-float".
#[local] Open Scope string_scope.
#[local] Open Scope float_scope.

(* ===================================================================== *)
(** * Part I: definitions                                                 *)
(* ===================================================================== *)

(** ** JavaScript values and the built-ins the sources use *)

Module JS.

Definition number := float.

Definition is_neg_zero (a : number) : bool :=
  match classify a with NZero => true | _ => false end.

(** [Math.max] and [Math.min] on two arguments: NaN when an argument is
    NaN, and [+0] is larger than [-0]. *)
Definition Math_max (a b : number) : number :=
  if is_nan a || is_nan b then nan
  else if a <? b then b
  else if b <? a then a
  else if is_neg_zero a then b else a.

Definition Math_min (a b : number) : number :=
  if is_nan a || is_nan b then nan
  else if a <? b then a
  else if b <? a then b
  else if is_neg_zero b then b else a.

(** [n] used as a condition: [0], [-0] and NaN are falsy. *)
Definition truthy_number (n : number) : bool :=
  negb ((n =? 0) || is_nan n).

(** A number of frames, array length or index as a JavaScript number. *)
Definition number_of_nat (n : nat) : number :=
  of_uint63 (Uint63.of_Z (Z.of_nat n)).

(** The values (of TypeScript type [any]) that reach the code through
    JSON bodies and detector results.  An object or an array is
    represented by what the sources
    observe of it: it is truthy, and it has a [String(...)] and a
    [Number(...)] conversion. *)
Inductive any : Type :=
| VUndefined
| VNull
| VBool (b : bool)
| VNumber (n : number)
| VString (s : string)
| VObject (asString : string) (asNumber : number).

Definition truthy (v : any) : bool :=
  match v with
  | VUndefined | VNull => false
  | VBool b => b
  | VNumber n => truthy_number n
  | VString s => negb (String.eqb s "")
  | VObject _ _ => true
  end.

(** [a || b] *)
Definition or_else (a b : any) : any := if truthy a then a else b.

(** [a ?? b] *)
Definition nullish (a b : any) : any :=
  match a with
  | VUndefined | VNull => b
  | _ => a
  end.

(** The two conversions of the host that are not arithmetic: reading a
    string as a number, printing a number, and [Math.hypot], whose
    rounding the language leaves to the implementation. *)
Class Host : Type := {
  StringToNumber : string -> number;
  NumberToString : number -> string;
  Math_hypot : number -> number -> number
}.

Section Conversions.
Context {host : Host}.

(** [Number(v)] *)
Definition Number (v : any) : number :=
  match v with
  | VUndefined => nan
  | VNull => 0
  | VBool b => if b then 1 else 0
  | VNumber n => n
  | VString s => StringToNumber s
  | VObject _ n => n
  end.

(** [String(v)] *)
Definition String_ (v : any) : string :=
  match v with
  | VUndefined => "undefined"
  | VNull => "null"
  | VBool b => if b then "true" else "false"
  | VNumber n => NumberToString n
  | VString s => s
  | VObject s _ => s
  end.
End Conversions.

(** [s.toLowerCase()].  A string is its sequence of bytes; the letters
    A-Z are mapped to a-z and every other byte is kept.  (Of the letters
    outside ASCII that JavaScript maps as well, none turns a string into
    one of the seven labels of the classifier.) *)
Definition lower_ascii (c : ascii) : ascii :=
  let n := nat_of_ascii c in
  if (65 <=? n)%nat && (n <=? 90)%nat then ascii_of_nat (n + 32) else c.

Fixpoint toLowerCase (s : string) : string :=
  match s with
  | EmptyString => EmptyString
  | String c r => String (lower_ascii c) (toLowerCase r)
  end.

(** [xs.includes(s)] on an array of strings. *)
Definition includes (xs : list string) (s : string) : bool :=
  existsb (String.eqb s) xs.

(** A call that returns or throws an error with a message (for a
    promise: resolves or rejects). *)
Inductive outcome (A : Type) : Type :=
| Returns (a : A)
| Throws (message : string).
Arguments Returns {A} a.
Arguments Throws {A} message.

End JS.

(** ** Effects: a trace of events, and exceptions *)

Module Eff.
Import JS.

Section Monad.
Variable event : Type.

(** A computation yields the events it emitted, in order, and either a
    result or the error it threw. *)
Definition M (A : Type) : Type := (list event * outcome A)%type.

Definition ret {A} (a : A) : M A := ([], Returns a).

Definition bind {A B} (m : M A) (f : A -> M B) : M B :=
  match m with
  | (t, Returns a) => let '(t', r) := f a in ((t ++ t')%list, r)
  | (t, Throws e) => (t, Throws e)
  end.

Definition emit (e : event) : M unit := ([e], Returns tt).

Definition throw {A} (message : string) : M A := ([], Throws message).

(** [await p], [p] being a call of the environment. *)
Definition await {A} (p : outcome A) : M A := ([], p).

(** [try { m } catch (e) { handler e }] *)
Definition try_catch {A} (m : M A) (handler : string -> M A) : M A :=
  match m with
  | (t, Throws e) => let '(t', r) := handler e in ((t ++ t')%list, r)
  | done => done
  end.

(** [try { m } finally { f }], for an [f] that does not throw. *)
Definition finally {A} (m : M A) (f : M unit) : M A :=
  let '(t, r) := m in ((t ++ fst f)%list, r).

Definition trace {A} (m : M A) : list event := fst m.
End Monad.

Arguments ret {event A} a.
Arguments bind {event A B} m f.
Arguments emit {event} e.
Arguments throw {event A} message.
Arguments await {event A} p.
Arguments try_catch {event A} m handler.
Arguments finally {event A} m f.
Arguments trace {event A} m.

Module Notations.
Notation "x <- m ;; k" := (bind m (fun x => k))
  (at level 61, m at next level, right associativity).
Notation "m ;;; k" := (bind m (fun _ => k))
  (at level 61, right associativity).
End Notations.
End Eff.

(** ** [CameraCapture.tsx] *)

Module CameraCapture.
Import JS Eff Eff.Notations.

(** [DetectionResult] (lines 8-12); every call of the component supplies
    the optional [confidence]. *)
Record DetectionResult : Type := {
  emotion : string;
  imageSrc : string;
  confidence : number
}.

(** An expression vector, [Record<string, number>]: the entries of the
    object in the order [Object.entries] lists them, which for keys that
    are not array indices (the labels are not) is insertion order.  The
    entries are of type [any] because the code tests [typeof value]. *)
Definition Expressions := list (string * any).

(** [{ key: string; value: number }] *)
Record Top : Type := { key : string; value : number }.

(** [getTopEmotion] (lines 22-29). *)
Definition pick (top : Top) (entry : string * any) : Top :=
  match entry with
  | (k, VNumber v) => if value top <? v then {| key := k; value := v |} else top
  | _ => top
  end.

Definition getTopEmotion (expressions : option Expressions) : Top :=
  match expressions with
  | None => {| key := "neutral"; value := 0 |}
  | Some entries => fold_left pick entries {| key := "neutral"; value := -1 |}
  end.

(** The accumulators [accum] and [averaged]: objects whose properties
    hold numbers.  [o[k]] and [o[k] = v]: an assignment to an existing key
    keeps its place, a new key goes last.  This is how an object behaves
    for keys like the detector's labels, which are neither array indices
    (an object lists those first) nor names of members of
    [Object.prototype] (which [o[k]] would find on an empty object). *)
Definition Scores := list (string * number).

Fixpoint get (k : string) (o : Scores) : option number :=
  match o with
  | [] => None
  | (k', v) :: rest => if String.eqb k k' then Some v else get k rest
  end.

Fixpoint set (k : string) (v : number) (o : Scores) : Scores :=
  match o with
  | [] => [(k, v)]
  | (k', v') :: rest =>
      if String.eqb k k' then (k, v) :: rest else (k', v') :: set k v rest
  end.

Definition as_expressions (o : Scores) : Expressions :=
  map (fun '(k, v) => (k, VNumber v)) o.

(** [e.sad], [e.angry]: a property that may be absent. *)
Fixpoint prop (k : string) (e : Expressions) : any :=
  match e with
  | [] => VUndefined
  | (k', v) :: rest => if String.eqb k k' then v else prop k rest
  end.

(** [Object.keys(o)] *)
Definition keys (o : Scores) : list string := map fst o.

(** [accum[k] || 0] *)
Definition or0 (g : option number) : number :=
  match g with
  | Some a => if truthy_number a then a else 0
  | None => 0
  end.

(** Lines 151-153: [accum[k] = (accum[k] || 0) + (typeof v === "number" ? v : 0)]. *)
Definition accumulate (accum : Scores) (entry : string * any) : Scores :=
  let '(k, v) := entry in
  set k (or0 (get k accum) + match v with VNumber n => n | _ => 0 end) accum.

(** Lines 159-162: [averaged[k] = v / Math.max(1, frames)]. *)
Definition average (frames : nat) (accum : Scores) : Scores :=
  fold_left (fun averaged '(k, v) =>
               set k (v / Math_max 1 (number_of_nat frames)) averaged)
            accum [].

(** Face landmarks: the point groups the heuristics read. *)
Record Point : Type := { x : number; y : number }.

Record Landmarks : Type := {
  getMouth : list Point;
  getLeftEye : list Point;
  getRightEye : list Point;
  getLeftEyeBrow : list Point
}.

(** [arr[i]]: [undefined] outside the array. *)
Definition at_ (arr : list Point) (i : Z) : option Point :=
  if (i <? 0)%Z then None else nth_error arr (Z.to_nat i).

(** [a || b] on points: an object is truthy, [undefined] is not. *)
Definition or_point (a b : option Point) : option Point :=
  match a with Some _ => a | None => b end.

(** [Math.floor(arr.length / 2)] *)
Definition half (arr : list Point) : Z := (Z.of_nat (List.length arr) / 2)%Z.

Record Metrics : Type := {
  mouthCornerDepression : number;
  mouthWidthNorm : number;
  browToEye : number
}.

(** What the environment answers to one run of [captureAndDetect]. *)
Record Frame : Type := {
  (** [webcamRef.current?.getScreenshot()], read for the frames after the
      first *)
  shot : option string;
  (** decoding the frame and running the detector on it:
      [detection?.expressions], or an error *)
  detect : outcome (option Expressions)
}.

Record ClassifyData : Type := {
  data_emotion : any;
  data_confidence : any
}.

(** [fetch('/api/classify', ...)]: rejected (network error, abort after
    8 s), or a response with its [ok] flag and the result of
    [res.json()] (an error also when the body is not an object). *)
Inductive ClassifyFetch : Type :=
| Rejected (message : string)
| Responded (ok : bool) (json : outcome ClassifyData).

Record Env : Type := {
  webcam : bool;                         (* [webcamRef.current] is set *)
  getScreenshot : option string;         (* line 99 *)
  imageLoad : bool;                      (* lines 103-108: the frame decodes *)
  quickDetection : outcome (option Expressions);  (* lines 114-115 *)
  fullModelsLoaded : bool;
  frame : nat -> Frame;                  (* lines 135-149, frame [i] *)
  landmarkDetection : outcome (option (Landmarks * Expressions)); (* 173-178 *)
  classify : ClassifyFetch               (* lines 214-222 *)
}.

Inductive event : Type :=
| SetError (message : option string)
| SetDetecting (b : bool)
| OnDetected (r : DetectionResult)
| FetchClassify (image : string) (expressions : Scores).

Definition Run := Eff.M event.

(** The [onDetected] calls of a trace, in order. *)
Definition detections (t : list event) : list DetectionResult :=
  flat_map (fun e => match e with OnDetected r => [r] | _ => [] end) t.

(** The bodies sent to [/api/classify], in order. *)
Definition classifyCalls (t : list event) : list (string * Scores) :=
  flat_map (fun e => match e with FetchClassify i a => [(i, a)] | _ => [] end) t.

Section Pipeline.
Context {host : Host}.

(** Lines 180-194. [None]: a [TypeError] (a property of [undefined]). *)
Definition metrics (lm : Landmarks) : option Metrics :=
  let mouth := getMouth lm in
  let leftEye := getLeftEye lm in
  let rightEye := getRightEye lm in
  match at_ leftEye 0, at_ rightEye 3 with
  | Some le0, Some re3 =>
      let h := Math_hypot (x le0 - x re3) (y le0 - y re3) in
      let eyeDist := if truthy_number h then h else 1 in
      let leftCorner := at_ mouth 0 in
      let rightCorner := at_ mouth (Z.of_nat (List.length mouth) - 1) in
      let topLip := or_point (at_ mouth (half mouth - 1)) (at_ mouth 3) in
      let bottomLip := or_point (at_ mouth (half mouth + 1)) (at_ mouth 9) in
      match leftCorner, rightCorner, topLip, bottomLip,
            at_ (getLeftEyeBrow lm) (half (getLeftEyeBrow lm)) with
      | Some leftCorner, Some rightCorner, Some topLip, Some bottomLip, Some brow =>
          let mouthCenterY := (y topLip + y bottomLip) / 2 in
          let browInnerYAvg := y brow in
          let eyeCenterY := (y le0 + y re3) / 2 in
          Some {|
            mouthCornerDepression :=
              ((y leftCorner + y rightCorner) / 2 - mouthCenterY) / eyeDist;
            mouthWidthNorm :=
              Math_hypot (x leftCorner - x rightCorner)
                         (y leftCorner - y rightCorner) / eyeDist;
            browToEye := (browInnerYAvg - eyeCenterY) / eyeDist
          |}
      | _, _, _, _, _ => None
      end
  | _, _ => None
  end.

(** Lines 195-198 and 199-202, on the label and confidence so far. *)
Definition sadCondition (m : Metrics) (exprs : Expressions) : bool :=
  (0.045 <? mouthCornerDepression m)
  || (0.18 <? Number (nullish (prop "sad" exprs) (VNumber 0))).

Definition angryCondition (m : Metrics) : bool :=
  (0.03 <? browToEye m) && (mouthWidthNorm m <? 0.45).

Definition sadOverride (m : Metrics) (exprs : Expressions)
           (final : string * number) : string * number :=
  if sadCondition m exprs
  then ("sad", Math_max (snd final) (Number (nullish (prop "sad" exprs) (VNumber 0.6))))
  else final.

Definition angryOverride (m : Metrics) (exprs : Expressions)
           (final : string * number) : string * number :=
  if angryCondition m
  then ("angry", Math_max (snd final) (Number (nullish (prop "angry" exprs) (VNumber 0.6))))
  else final.

Definition heuristics (m : Metrics) (exprs : Expressions)
           (final : string * number) : string * number :=
  angryOverride m exprs (sadOverride m exprs final).

(** Lines 110-121: the provisional label and confidence. *)
Definition quick (det : outcome (option Expressions)) : string * number :=
  match det with
  | Returns qExpr =>
      let top := getTopEmotion qExpr in
      (if 0.2 <=? value top then key top else "neutral",
       Math_max 0.01 (Math_min 0.99 (value top)))
  | Throws _ => ("neutral", 0.5)
  end.

(** Line 130. *)
Definition frames (full : bool) : nat := if full then 3%nat else 1%nat.

(** [!src] *)
Definition no_image (src : option string) : bool :=
  match src with
  | Some s => String.eqb s ""
  | None => true
  end.

(** Lines 133-157, the iteration for frame [i]. *)
Definition sample (env : Env) (imageSrc : string) (accum : Scores) (i : nat)
  : Run Scores :=
  let src := if (i =? 0)%nat then Some imageSrc else shot (frame env i) in
  if no_image src then ret accum
  else
    expressions <- await (detect (frame env i)) ;;
    ret (match expressions with
         | Some entries => fold_left accumulate entries accum
         | None => accum
         end).

Fixpoint sampleFrames (env : Env) (imageSrc : string) (accum : Scores)
         (indices : list nat) : Run Scores :=
  match indices with
  | [] => ret accum
  | i :: rest =>
      accum' <- sample env imageSrc accum i ;;
      sampleFrames env imageSrc accum' rest
  end.

(** Lines 164-168: the label and confidence of the averaged vector. *)
Definition deepLabel (averaged : Scores) : string * number :=
  let top := getTopEmotion (Some (as_expressions averaged)) in
  let finalScore := Math_max 0 (Math_min 1 (value top)) in
  (if 0.35 <=? finalScore then key top else "neutral", finalScore).

(** Lines 171-207: the landmark heuristics, when the full tier is
    loaded; an error inside is ignored (line 204). *)
Definition refine (env : Env) (final : string * number) : string * number :=
  if fullModelsLoaded env then
    match landmarkDetection env with
    | Returns (Some (lm, exprs)) =>
        match metrics lm with
        | Some m => heuristics m exprs final
        | None => final
        end
    | Returns None => final
    | Throws _ => final
    end
  else final.

(** Lines 209-232: the remote classifier, asked when the label is
    still "neutral". *)
Definition remoteFallback (env : Env) (imageSrc : string) (averaged : Scores)
           (final : string * number) : Run (string * number) :=
  if String.eqb (fst final) "neutral" then
    try_catch
      (emit (FetchClassify imageSrc averaged) ;;;
       match classify env with
       | Rejected message => throw message
       | Responded ok json =>
           if ok then
             data <- await json ;;
             let conf :=
               Math_max 0 (Math_min 1
                 (Number (nullish (data_confidence data) (VNumber 0)))) in
             if truthy (data_emotion data) && (0.2 <=? conf)
             then ret (String_ (data_emotion data), Math_max (snd final) conf)
             else ret final
           else ret final
       end)
      (fun _ => ret final)
  else ret final.

(** Lines 234-244: whether the final result replaces the provisional
    one. *)
Definition needsUpdate (qc finalConfidence : number) : bool :=
  (qc + 0.15 <=? finalConfidence) || (0.5 <=? finalConfidence).

Definition arbiter (quickEmotion : string) (quickConfidence : number)
           (imageSrc : string) (final : string * number) : Run unit :=
  let '(finalEmotion, finalConfidence) := final in
  let qc := quickConfidence in
  if negb (String.eqb finalEmotion "")
     && negb (String.eqb finalEmotion quickEmotion)
  then
    if needsUpdate qc finalConfidence
    then emit (OnDetected {| emotion := finalEmotion;
                             imageSrc := imageSrc;
                             confidence := finalConfidence |})
    else ret tt
  else ret tt.

(** Lines 159-162 and 164-232: the final result, from the accumulated
    scores. *)
Definition finalResult (env : Env) (imageSrc : string) (accum : Scores)
  : Run (string * number) :=
  let averaged := average (frames (fullModelsLoaded env)) accum in
  remoteFallback env imageSrc averaged (refine env (deepLabel averaged)).

(** Lines 127-250: the background analysis. *)
Definition background (env : Env) (imageSrc : string)
           (quickEmotion : string) (quickConfidence : number) : Run unit :=
  finally
    (try_catch
       (accum <- sampleFrames env imageSrc []
                   (seq 0 (frames (fullModelsLoaded env))) ;;
        final <- finalResult env imageSrc accum ;;
        arbiter quickEmotion quickConfidence imageSrc final)
       (fun _ => ret tt))
    (emit (SetDetecting false)).

(** Lines 91-257. *)
Definition captureAndDetect (env : Env) : list event :=
  if negb (webcam env) then []
  else
    trace
      (emit (SetError None) ;;;
       emit (SetDetecting true) ;;;
       try_catch
         (imageSrc <- (if no_image (getScreenshot env)
                       then throw "Unable to capture image"
                       else ret (match getScreenshot env with
                                 | Some s => s
                                 | None => ""
                                 end)) ;;
          (if imageLoad env then ret tt else throw "Failed to load image") ;;;
          let q := quick (quickDetection env) in
          emit (OnDetected {| emotion := fst q;
                              imageSrc := imageSrc;
                              confidence := snd q |}) ;;;
          background env imageSrc (fst q) (snd q))
         (fun message =>
            emit (SetError
                    (Some (if String.eqb message ""
                           then "Something went wrong while detecting emotion"
                           else message))) ;;;
            emit (SetDetecting false))).
End Pipeline.
End CameraCapture.

(** ** [openai-classify.ts] *)

Module OpenAIClassify.
Import JS.

(** The fields of [req.body] the handler reads. *)
Record Body : Type := {
  image : any;
  expressions : any
}.

(** The object the handler parses out of an upstream response, by the
    two fields it sanitizes ([VUndefined] for an absent one). *)
Record Parsed : Type := {
  emotion : any;
  confidence : any
}.

(** A call of [axios.post]: rejected, or a response.  A response is given
    by what lines 73-131 make of it (serialization, search for a
    brace-delimited text, [JSON.parse]): an error, no object, or the
    parsed object. *)
Inductive Upstream : Type :=
| Fails (message : string)
| Responds (parse : outcome (option Parsed)).

Record Env : Type := {
  body : option Body;              (* [req.body]; [None] for [undefined] *)
  OPENAI_API_KEY : option string;  (* [process.env.OPENAI_API_KEY] *)
  vision : Upstream;               (* lines 34-40 *)
  text : Upstream                  (* lines 56-62 *)
}.

(** The JSON bodies of the route: [{ error }] (with [detail] in one case),
    and the classification, [{ emotion, confidence }] with a [note] from
    the outer [catch] (further properties of the parsed object, which
    line 144 sends along, are left out). *)
Inductive Json : Type :=
| Error (error : string)
| Classified (emotion : string) (confidence : number) (note : option string).

Record Response : Type := {
  status : nat;
  json : Json
}.

(** Line 139. *)
Definition allowed : list string :=
  ["happy"; "sad"; "angry"; "surprised"; "fearful"; "disgusted"; "neutral"].

(** Line 148: the body sent from the outer [catch]. *)
Definition fallback : Response :=
  {| status := 200; json := Classified "neutral" 0.5 (Some "openai_error") |}.

Section Handler.
Context {host : Host}.

(** Lines 138-142. *)
Definition sanitizeEmotion (parsed : Parsed) : string :=
  let emotion := toLowerCase (String_ (or_else (emotion parsed) (VString "neutral"))) in
  if includes allowed emotion then emotion else "neutral".

Definition sanitizeConfidence (parsed : Parsed) : number :=
  let n := Number (confidence parsed) in
  Math_max 0 (Math_min 1 (if truthy_number n then n else 0.5)).

(** Lines 73-144, for the response [resp] that was obtained. *)
Definition answer (parse : outcome (option Parsed)) : Response :=
  match parse with
  | Returns found =>
      let parsed := match found with
                    | Some p => p
                    | None => {| emotion := VString "neutral";
                                 confidence := VNumber 0.5 |}
                    end in
      {| status := 200;
         json := Classified (sanitizeEmotion parsed) (sanitizeConfidence parsed) None |}
  | Throws _ => fallback
  end.

(** [!OPENAI_API_KEY] *)
Definition no_key (k : option string) : bool :=
  match k with
  | Some s => String.eqb s ""
  | None => true
  end.

(** [handleOpenAIClassify] (lines 5-150). *)
Definition handleOpenAIClassify (env : Env) : Response :=
  match body env with
  | None => fallback   (* line 7 throws, line 145 catches *)
  | Some b =>
      if negb (truthy (image b))
      then {| status := 400; json := Error "Missing image in request body" |}
      else if no_key (OPENAI_API_KEY env)
      then {| status := 500; json := Error "OpenAI API key not configured" |}
      else
        match vision env with
        | Responds parse => answer parse
        | Fails _ =>
            if truthy (expressions b) then
              match text env with
              | Responds parse => answer parse
              | Fails _ =>
                  {| status := 500;
                     json := Error "Failed to classify image (both vision and text fallbacks failed)" |}
              end
            else
              {| status := 500;
                 json := Error "Failed to classify image (vision model failed)" |}
        end
  end.
End Handler.
End OpenAIClassify.

(** ** The [EmotionResult] component *)

Module EmotionResult.
Import JS Eff Eff.Notations.

(** A [fetch] of a proxy route: rejected, or a response with its [ok]
    flag and, from [res.json()], the field the component reads ([joke] or
    [quote]; [VUndefined] when the body has none). *)
Inductive Fetch : Type :=
| Rejected (message : string)
| Responded (ok : bool) (json : outcome any).

(** What one render of the component is given: the answers to its
    requests, and whether the optional prop [onSuggestionReady] (line 8) is
    passed; [Index.tsx] (line 54) passes none. *)
Record Env : Type := {
  jokeA : Fetch;
  jokeB : Fetch;
  quote : Fetch;
  onSuggestionReady : bool
}.

Inductive event : Type :=
| Fetched (url : string)
| SetLoading (b : bool)
| SetError (message : option string)
| SetMessage (text : any)
| OnSuggestionReady (text : any).

Definition Run := Eff.M event.

(** The component's state (lines 25-27). *)
Record State : Type := {
  message : any;
  loading : bool;
  error : option string
}.

Definition initial : State :=
  {| message := VString ""; loading := false; error := None |}.

Definition step (st : State) (e : event) : State :=
  match e with
  | SetLoading b => {| message := message st; loading := b; error := error st |}
  | SetError m => {| message := message st; loading := loading st; error := m |}
  | SetMessage t => {| message := t; loading := loading st; error := error st |}
  | Fetched _ | OnSuggestionReady _ => st
  end.

(** Lines 90-103: what is rendered under the title. *)
Inductive View : Type :=
| Waiting
| Failure (text : string)
| Suggestion (text : any).

(** [error ? ... : ...] tests the string: an empty one is falsy. *)
Definition render (st : State) : View :=
  if loading st then Waiting
  else match error st with
       | Some e => if String.eqb e "" then Suggestion (message st) else Failure e
       | None => Suggestion (message st)
       end.

Definition newline : string := String (ascii_of_nat 10) "".

Section Effect.
Context {host : Host}.

(** [await fetch(url)] *)
Definition fetch (url : string) (f : Fetch) : Run (bool * outcome any) :=
  emit (Fetched url) ;;;
  match f with
  | Rejected m => throw m
  | Responded ok json => ret (ok, json)
  end.

(** [r.ok ? await r.json() : null], then the field [?.joke]. *)
Definition jokeOf (r : bool * outcome any) : Run any :=
  if fst r then await (snd r) else ret VUndefined.

(** [jokes.map((j, i) => `${i + 1}. ${j}`).join('\n\n')] for at most two
    jokes. *)
Definition numbered (jokes : list any) : string :=
  match jokes with
  | [] => ""
  | [a] => "1. " ++ String_ a
  | a :: b :: _ => "1. " ++ String_ a ++ newline ++ newline ++ "2. " ++ String_ b
  end.

Definition intro : string :=
  "Hey — I can tell this is a tough moment. Here are a couple of light jokes to hopefully lift you up:"
  ++ newline ++ newline.

(** Lines 38-56: the text for [emotion]. *)
Definition suggestion (env : Env) (emotion : string) : Run any :=
  if String.eqb emotion "sad" then
    (* [Promise.all]: both requests are issued, either rejection throws *)
    emit (Fetched "/api/joke") ;;;
    emit (Fetched "/api/joke") ;;;
    match jokeA env, jokeB env with
    | Responded okA jsonA, Responded okB jsonB =>
        ja <- jokeOf (okA, jsonA) ;;
        jb <- jokeOf (okB, jsonB) ;;
        let jokes := filter truthy [ja; jb] in
        ret (VString (intro ++ match jokes with
                               | [] => "Here's a smile for you!"
                               | _ => numbered jokes
                               end))
    | Rejected m, _ => throw m
    | _, Rejected m => throw m
    end
  else if String.eqb emotion "angry" then
    res <- fetch "/api/quote" (quote env) ;;
    if negb (fst res) then throw "Failed to fetch quote"
    else
      data_quote <- await (snd res) ;;
      ret (or_else data_quote (VString "Breathe. Reset. Refocus."))
  else if String.eqb emotion "happy" then
    ret (VString "Keep smiling! 🌞")
  else
    ret (VString "I hope you’re doing well ❤️").

(** [run] (lines 34-67); [cancelled] is never set. *)
Definition run (env : Env) (emotion : string) : list event :=
  trace
    (emit (SetLoading true) ;;;
     emit (SetError None) ;;;
     finally
       (try_catch
          (text <- suggestion env emotion ;;
           emit (SetMessage text) ;;;
           (* [onSuggestionReady?.(text)] *)
           if onSuggestionReady env then emit (OnSuggestionReady text) else ret tt)
          (fun _ => emit (SetError (Some "Failed to fetch suggestion. Please try again."))))
       (emit (SetLoading false))).

(** The state after the effect has run from state [st]. *)
Definition after (st : State) (env : Env) (emotion : string) : State :=
  fold_left step (run env emotion) st.
End Effect.

(** The requests of a trace. *)
Definition requests (t : list event) : list string :=
  flat_map (fun e => match e with Fetched u => [u] | _ => [] end) t.
End EmotionResult.

(** ** The order of binary64 numbers, for the proofs

    [SFcompare], the comparison that specifies [<?], [<=?] and [=?], is the
    lexicographic order of the keys below; NaN has no key. *)

Module FloatOrder.

Definition sf_key (x : spec_float) : option (Z * Z * Z) :=
  match x with
  | S754_nan => None
  | S754_zero _ => Some (0, 0, 0)%Z
  | S754_infinity s => Some (if s then (-2) else 2, 0, 0)%Z
  | S754_finite s m e =>
      Some (if s then (-1, - e, - Zpos m) else (1, e, Zpos m))%Z
  end.

Definition lex3_compare (a b : Z * Z * Z) : comparison :=
  let '(a1, a2, a3) := a in
  let '(b1, b2, b3) := b in
  match (a1 ?= b1)%Z with
  | Eq => match (a2 ?= b2)%Z with
          | Eq => (a3 ?= b3)%Z
          | c => c
          end
  | c => c
  end.

Definition key_compare (a b : option (Z * Z * Z)) : option comparison :=
  match a, b with
  | Some ka, Some kb => Some (lex3_compare ka kb)
  | _, _ => None
  end.

Definition fkey (x : float) : option (Z * Z * Z) := sf_key (Prim2SF x).

(** The numbers that are [0] or above, [-0] left out: [+0], the positive
    finite numbers and [+infinity]. *)
Definition nonneg_sf (x : spec_float) : bool :=
  match x with
  | S754_zero false | S754_finite false _ _ | S754_infinity false => true
  | _ => false
  end.

Definition nonneg (a : float) : bool := nonneg_sf (Prim2SF a).

End FloatOrder.

(** ** Notions of the specification *)

Module Spec.
Import JS.

(** "[x] clamped to [[lo, hi]]". *)
Definition clamp (x lo hi : number) : number :=
  if x <=? lo then lo else if hi <=? x then hi else x.

(** "[x] lies in [[lo, hi]]". *)
Definition within (x lo hi : number) : Prop :=
  (lo <=? x) = true /\ (x <=? hi) = true.

(** The sum of the scores of one label: from [0], one frame's score added
    after the other. *)
Definition sum (scores : list number) : number :=
  fold_left PrimFloat.add scores 0.

(** The scores one expression vector holds for label [k] (an entry that is
    not a number counts as [0]). *)
Definition contributions (k : string) (es : CameraCapture.Expressions) : list number :=
  flat_map (fun entry : string * any =>
              if String.eqb (fst entry) k
              then [match snd entry with VNumber n => n | _ => 0 end]
              else [])
           es.

(** The expression vector frame [i] of a run contributes: the first frame
    is the captured one, a later frame needs a screenshot, and the
    detector must have found a face. *)
Definition sampled (env : CameraCapture.Env) (i : nat)
  : option CameraCapture.Expressions :=
  if (i =? 0)%nat || negb (CameraCapture.no_image (CameraCapture.shot (CameraCapture.frame env i)))
  then match CameraCapture.detect (CameraCapture.frame env i) with
       | Returns found => found
       | Throws _ => None
       end
  else None.

(** The per-frame scores of label [k] over the first [n] frames. *)
Definition frameScores (env : CameraCapture.Env) (k : string) (n : nat) : list number :=
  flat_map (fun i => match sampled env i with
                     | Some es => contributions k es
                     | None => []
                     end)
           (seq 0 n).

(** The running sums of [scores] from [a]. *)
Fixpoint running (a : number) (scores : list number) : list number :=
  match scores with
  | [] => []
  | v :: rest => (a + v) :: running (a + v) rest
  end.

(** A number that is neither NaN nor [-0] (a sum of scores in [[0, 1]]
    is neither). *)
Definition plain (a : number) : bool :=
  negb (is_nan a) && negb (is_neg_zero a).

(** A host for examples: [Math.hypot] rounds the root of the rounded sum
    of squares, a string that is not read as a number is NaN, and
    numbers print as the empty string (no example prints one). *)
Definition exampleHost : Host :=
  {| StringToNumber := fun _ => nan;
     NumberToString := fun _ => "";
     Math_hypot := fun a b => PrimFloat.sqrt (a * a + b * b) |}.
End Spec.

(** ** Inputs for the examples *)

Module Examples.
Import JS CameraCapture.

Definition photo : string := "data:image/jpeg;base64,/9j/4AAQSkZJRg".

(** A frame from the live feed on which the detector reports [e]. *)
Definition still (e : option Expressions) : Frame :=
  {| shot := Some photo; detect := Returns e |}.

(** A captured frame on which the fast detector reports [quickly] and
    the background pass, frame after frame, [deeply] (and nothing after
    those); no landmarks, and the classifier route cannot be reached. *)
Definition session (full : bool) (quickly : option Expressions)
           (deeply : list (option Expressions)) : Env :=
  {| webcam := true;
     getScreenshot := Some photo;
     imageLoad := true;
     quickDetection := Returns quickly;
     fullModelsLoaded := full;
     frame := fun i => still (nth i deeply None);
     landmarkDetection := Returns None;
     classify := Rejected "Failed to fetch" |}.

(** Nobody in front of the camera. *)
Definition noFace : Env := session false None [None].

(** The fast detector sees "happy" at 0.4, the background pass "sad" at
    0.5. *)
Definition happyThenSad : Env :=
  session false (Some [("happy", VNumber 0.4)]) [Some [("sad", VNumber 0.5)]].

(** A faint smile: the fast detector sees "happy" at 0.21. *)
Definition faintSmile : Env :=
  session false (Some [("happy", VNumber 0.21)]) [Some [("happy", VNumber 0.21)]].

(** The full tier is loaded; the three frames of the background pass score
    "sad" at 0.1, 0.2 and 0.3. *)
Definition tenths : Env :=
  session true None [Some [("sad", VNumber 0.1)]; Some [("sad", VNumber 0.2)];
                     Some [("sad", VNumber 0.3)]].

Definition pt (px py : number) : Point := {| x := px; y := py |}.

(** Landmarks of a frowning face, in pixels: 20 points for the mouth, 6
    for each eye, 5 for the left brow.  The eye corners read
    ([leftEye[0]], [rightEye[3]]) are 100 px apart; the mouth corners read
    ([mouth[0]], [mouth[19]]) lie 5 px below the centre of the lips
    ([mouth[9]], [mouth[11]]) and 40 px apart; the middle of the left brow
    lies 4 px below the line of the eye corners. *)
Definition frown : Landmarks :=
  {| getMouth :=
       (pt 130 166 :: repeat (pt 150 158) 8)
       ++ [pt 150 160; pt 150 170; pt 150 160]
       ++ repeat (pt 150 162) 7 ++ [pt 170 164];
     getLeftEye := pt 100 100 :: repeat (pt 110 98) 5;
     getRightEye := repeat (pt 190 98) 3 ++ [pt 200 100; pt 190 102; pt 185 102];
     getLeftEyeBrow := [pt 95 90; pt 102 96; pt 110 104; pt 118 98; pt 125 94] |}.

Definition frownScores : Expressions :=
  [("neutral", VNumber 0.7); ("happy", VNumber 0.01); ("sad", VNumber 0.1);
   ("angry", VNumber 0.1); ("fearful", VNumber 0.03);
   ("disgusted", VNumber 0.03); ("surprised", VNumber 0.03)].

(** The full tier is loaded and sees that face on every frame. *)
Definition frowning : Env :=
  {| webcam := true;
     getScreenshot := Some photo;
     imageLoad := true;
     quickDetection := Returns (Some frownScores);
     fullModelsLoaded := true;
     frame := fun _ => still (Some frownScores);
     landmarkDetection := Returns (Some (frown, frownScores));
     classify := Rejected "Failed to fetch" |}.

(** The classifier route answers "sad" with confidence 0.8. *)
Definition remoteSad : Env :=
  {| webcam := true;
     getScreenshot := Some photo;
     imageLoad := true;
     quickDetection := Returns None;
     fullModelsLoaded := false;
     frame := fun _ => still None;
     landmarkDetection := Returns None;
     classify := Responded true
                   (Returns {| data_emotion := VString "sad";
                               data_confidence := VNumber 0.8 |}) |}.

(** The classifier route answers "sad" with a confidence of 1.7. *)
Definition remoteOverconfident : Env :=
  {| webcam := true;
     getScreenshot := Some photo;
     imageLoad := true;
     quickDetection := Returns None;
     fullModelsLoaded := false;
     frame := fun _ => still None;
     landmarkDetection := Returns None;
     classify := Responded true
                   (Returns {| data_emotion := VString "sad";
                               data_confidence := VNumber 1.7 |}) |}.
End Examples.

Module ClassifyExamples.
Import JS OpenAIClassify.

(** A request with an image and no expression vector; the credential is
    configured. *)
Definition imageOnly (vision text : Upstream) : Env :=
  {| body := Some {| image := VString Examples.photo; expressions := VUndefined |};
     OPENAI_API_KEY := Some "sk-test";
     vision := vision;
     text := text |}.

(** The vision call fails (network error, timeout, model not found). *)
Definition visionDown : Env :=
  imageOnly (Fails "timeout of 20000ms exceeded") (Fails "").

(** The model answers [{"emotion":"happy","confidence":0}]. *)
Definition zeroConfidence : Env :=
  imageOnly (Responds (Returns (Some {| emotion := VString "happy";
                                        confidence := VNumber 0 |})))
            (Fails "").

(** The model answers [{"emotion":"Happy","confidence":1.7}]. *)
Definition overConfident : Env :=
  imageOnly (Responds (Returns (Some {| emotion := VString "Happy";
                                        confidence := VNumber 1.7 |})))
            (Fails "").
End ClassifyExamples.

Module SuggestionExamples.
Import JS EmotionResult.

(** The quote route cannot be reached. *)
Definition quoteDown : Env :=
  {| jokeA := Rejected "Failed to fetch";
     jokeB := Rejected "Failed to fetch";
     quote := Rejected "Failed to fetch";
     onSuggestionReady := false |}.

(** The quote route answers with a quote. *)
Definition quoteUp : Env :=
  {| jokeA := Rejected "Failed to fetch";
     jokeB := Rejected "Failed to fetch";
     quote := Responded true
                (Returns (VString "Patience is bitter, but its fruit is sweet. — Aristotle"));
     onSuggestionReady := false |}.

(** The quote route answers [200] with a body that has no quote. *)
Definition quoteEmpty : Env :=
  {| jokeA := Rejected "Failed to fetch";
     jokeB := Rejected "Failed to fetch";
     quote := Responded true (Returns VUndefined);
     onSuggestionReady := false |}.
End SuggestionExamples.

(** ** [joke.ts] and [quote.ts] *)

Module ProxyRoutes.
Import JS.

(** The JSON bodies of the two routes: [{ error }], [{ joke }],
    [{ quote }]. *)
Inductive Json : Type :=
| Error (error : string)
| Joke (joke : any)
| Quote (quote : string).

Record Response : Type := {
  status : nat;
  json : Json
}.

(** [handleJoke] (joke.ts, lines 4-18).  The call of [axios.get] is
    rejected, or resolves to a response of which the handler reads
    [data?.joke] ([VUndefined] when there is none). *)
Definition handleJoke (upstream : outcome any) : Response :=
  match upstream with
  | Returns data_joke =>
      let joke := or_else data_joke VNull in
      if negb (truthy joke)
      then {| status := 502; json := Error "No joke returned" |}
      else {| status := 200; json := Joke joke |}
  | Throws _ => {| status := 502; json := Error "Failed to fetch joke" |}
  end.

(** What [handleQuote] reads of [resp.data]: the value itself, or its first
    element when it is an array; that item is falsy, or it is truthy and
    has the properties [q] and [a] ([VUndefined] for an absent one). *)
Inductive Item : Type :=
| Falsy
| Truthy (q a : any).

Inductive Data : Type :=
| IsArray (items : list Item)
| NotArray (item : Item).

Section Quote.
Context {host : Host}.

(** [handleQuote] (quote.ts, lines 4-16). *)
Definition handleQuote (upstream : outcome Data) : Response :=
  match upstream with
  | Returns data =>
      let item := match data with
                  | IsArray items => nth 0 items Falsy
                  | NotArray item => item
                  end in
      let quote := match item with
                   | Truthy q a => Some (String_ q ++ " — " ++ String_ a)
                   | Falsy => None
                   end in
      match quote with
      | Some text =>
          if String.eqb text ""
          then {| status := 502; json := Error "No quote returned" |}
          else {| status := 200; json := Quote text |}
      | None => {| status := 502; json := Error "No quote returned" |}
      end
  | Throws _ => {| status := 502; json := Error "Failed to fetch quote" |}
  end.
End Quote.
End ProxyRoutes.

(** ** The routes as the client sees them

    A [fetch] of a route of this server resolves to the response the
    handler sent: [res.ok] holds for a status from 200 to 299, and
    [res.json()] gives back the body ([JSON.stringify] and [JSON.parse]
    return the strings and the finite numbers they are given). *)

Module Http.
Import JS.

Definition ok (status : nat) : bool :=
  (200 <=? status)%nat && (status <=? 299)%nat.

(** The response of [/api/classify], as line 214 of [CameraCapture.tsx]
    receives it, by the two properties the client reads. *)
Definition classifyFetch (r : OpenAIClassify.Response) : CameraCapture.ClassifyFetch :=
  CameraCapture.Responded (ok (OpenAIClassify.status r))
    (Returns
       match OpenAIClassify.json r with
       | OpenAIClassify.Classified e c _ =>
           {| CameraCapture.data_emotion := VString e;
              CameraCapture.data_confidence := VNumber c |}
       | OpenAIClassify.Error _ =>
           {| CameraCapture.data_emotion := VUndefined;
              CameraCapture.data_confidence := VUndefined |}
       end).

(** The response of [/api/joke] or [/api/quote], as [EmotionResult]
    receives it, by the property it reads ([joke] or [quote]). *)
Definition proxyFetch (r : ProxyRoutes.Response) : EmotionResult.Fetch :=
  EmotionResult.Responded (ok (ProxyRoutes.status r))
    (Returns
       match ProxyRoutes.json r with
       | ProxyRoutes.Joke j => j
       | ProxyRoutes.Quote q => VString q
       | ProxyRoutes.Error _ => VUndefined
       end).
End Http.

(** ** [Index.tsx] *)

Module IndexPage.
Import JS.

(** [localStorage]: keys and their strings. *)
Definition Storage := list (string * string).

Fixpoint getItem (k : string) (st : Storage) : option string :=
  match st with
  | [] => None
  | (k', v) :: rest => if String.eqb k k' then Some v else getItem k rest
  end.

Fixpoint setItem (k v : string) (st : Storage) : Storage :=
  match st with
  | [] => [(k, v)]
  | (k', v') :: rest =>
      if String.eqb k k' then (k, v) :: rest else (k', v') :: setItem k v rest
  end.

(** [localStorage.getItem(k) || fallback] *)
Definition getItemOr (k fallback : string) (st : Storage) : string :=
  match getItem k st with
  | Some v => if String.eqb v "" then fallback else v
  | None => fallback
  end.

(** The state of the page (lines 8-9), with what its effects write: the
    storage, and the class "dark" of the document. *)
Record Page : Type := {
  result : option CameraCapture.DetectionResult;
  theme : string;
  storage : Storage;
  dark : bool
}.

(** Lines 11-14: the effect of [theme], run after the first render and
    after each render that changed [theme]. *)
Definition themeEffect (p : Page) : Page :=
  {| result := result p;
     theme := theme p;
     storage := setItem "theme" (theme p) (storage p);
     dark := String.eqb (theme p) "dark" |}.

(** Lines 16-20: the effect of [result], run after the first render and
    after each render that changed [result]. *)
Definition resultEffect (p : Page) : Page :=
  {| result := result p;
     theme := theme p;
     storage := match result p with
                | Some r =>
                    if negb (String.eqb (CameraCapture.emotion r) "")
                    then setItem "moodmate:lastEmotion" (CameraCapture.emotion r)
                           (storage p)
                    else storage p
                | None => storage p
                end;
     dark := dark p |}.

(** The first render (lines 8-9), with both effects in their order. *)
Definition mount (st : Storage) : Page :=
  resultEffect
    (themeEffect {| result := None;
                    theme := getItemOr "theme" "light" st;
                    storage := st;
                    dark := false |}).

(** Line 22: what the page shows as the last mood, read once. *)
Definition lastEmotion (st : Storage) : string :=
  getItemOr "moodmate:lastEmotion" "" st.

Inductive action : Type :=
| Detected (r : CameraCapture.DetectionResult)   (* [onDetected={setResult}] *)
| TryAgain                                       (* [reset], line 24 *)
| ToggleTheme.                                   (* line 30 *)

(** One state change and the effect of the state it changed. A detection
    hands over a new object, so [result] changes; the toggle always
    changes [theme]. *)
Definition update (p : Page) (a : action) : Page :=
  match a with
  | Detected r =>
      resultEffect
        {| result := Some r; theme := theme p; storage := storage p; dark := dark p |}
  | TryAgain =>
      resultEffect
        {| result := None; theme := theme p; storage := storage p; dark := dark p |}
  | ToggleTheme =>
      themeEffect
        {| result := result p;
           theme := if String.eqb (theme p) "light" then "dark" else "light";
           storage := storage p;
           dark := dark p |}
  end.

Definition session (st : Storage) (actions : list action) : Page :=
  fold_left update actions (mount st).

(** The emotion of the last result with one, if any. *)
Fixpoint lastDetected (actions : list action) (sofar : option string) : option string :=
  match actions with
  | [] => sofar
  | Detected r :: rest =>
      lastDetected rest
        (if String.eqb (CameraCapture.emotion r) "" then sofar
         else Some (CameraCapture.emotion r))
  | _ :: rest => lastDetected rest sofar
  end.
End IndexPage.

(** ** [FeedbackForm.tsx] *)

Module FeedbackForm.

Inductive vote : Type := up | down.

Inductive event : Type :=
| OnFeedback (v : vote).

(** Lines 19-27: what is rendered, the thanks once a vote is in, the two
    buttons before. *)
Inductive View : Type :=
| Thanks (text : string)
| Buttons.

Definition render (submitted : option vote) : View :=
  match submitted with
  | Some up => Thanks "Thanks! Glad it helped 💙"
  | Some down => Thanks "Thanks for the feedback. We'll try better next time 💜"
  | None => Buttons
  end.

(** [handle] (lines 11-14): [setSubmitted(val); onFeedback?.(val)].
    [onFeedback] tells whether the optional prop (line 5) is passed;
    [Index.tsx] (line 58) passes none. *)
Definition handle (onFeedback : bool) (v : vote) : option vote * list event :=
  (Some v, if onFeedback then [OnFeedback v] else []).

(** A press of button [v]: the button is there only while the buttons are
    rendered. *)
Definition press (onFeedback : bool) (submitted : option vote) (v : vote)
  : option vote * list event :=
  match render submitted with
  | Buttons => handle onFeedback v
  | Thanks _ => (submitted, [])
  end.

Fixpoint presses (onFeedback : bool) (submitted : option vote) (vs : list vote)
  : option vote * list event :=
  match vs with
  | [] => (submitted, [])
  | v :: rest =>
      let '(s1, e1) := press onFeedback submitted v in
      let '(s2, e2) := presses onFeedback s1 rest in
      (s2, (e1 ++ e2)%list)
  end.
End FeedbackForm.

(** ** Reading a trace of [captureAndDetect] *)

Module Observe.
Import JS CameraCapture.

(** The events of the background analysis that leave the component: a
    call of [onDetected], a request to the classifier route. *)
Definition outward (e : event) : bool :=
  match e with
  | OnDetected _ | FetchClassify _ _ => true
  | SetError _ | SetDetecting _ => false
  end.

(** The error messages shown to the user, in order. *)
Definition errorsShown (t : list event) : list string :=
  flat_map (fun e => match e with SetError (Some m) => [m] | _ => [] end) t.

(** Frame [i] of a run is read: the first frame is the captured one, a
    later frame needs a screenshot. *)
Definition readFrame (env : Env) (i : nat) : bool :=
  (i =? 0)%nat || negb (no_image (shot (frame env i))).
End Observe.

(** ** Further inputs for the examples *)

Module Scenarios.
Import JS CameraCapture.

(** The webcam gives no screenshot. *)
Definition noScreenshot : Env :=
  {| webcam := true;
     getScreenshot := None;
     imageLoad := true;
     quickDetection := Returns None;
     fullModelsLoaded := false;
     frame := fun _ => Examples.still None;
     landmarkDetection := Returns None;
     classify := Rejected "Failed to fetch" |}.

(** Nobody in front of the camera, and the classifier route answers
    [response]. *)
Definition servedBy (response : OpenAIClassify.Response) : Env :=
  {| webcam := true;
     getScreenshot := Some Examples.photo;
     imageLoad := true;
     quickDetection := Returns None;
     fullModelsLoaded := false;
     frame := fun _ => Examples.still None;
     landmarkDetection := Returns None;
     classify := Http.classifyFetch response |}.
End Scenarios.

(** ** The proxy routes behind [EmotionResult] *)

Module Served.
Import JS.

(** The error text of [EmotionResult] (line 63). *)
Definition failureText : string := "Failed to fetch suggestion. Please try again.".

(** The joke an upstream call yields, if it yields one. *)
Definition jokesOf (upstream : outcome any) : list any :=
  match upstream with
  | Returns j => if truthy j then [j] else []
  | Throws _ => []
  end.

(** The item [handleQuote] reads from an upstream call. *)
Definition itemOf (upstream : outcome ProxyRoutes.Data) : ProxyRoutes.Item :=
  match upstream with
  | Returns (ProxyRoutes.IsArray items) => nth 0 items ProxyRoutes.Falsy
  | Returns (ProxyRoutes.NotArray item) => item
  | Throws _ => ProxyRoutes.Falsy
  end.

(** The component as the page renders it (no [onSuggestionReady]), with
    its three requests served by the routes of this server, the upstream
    calls of which end as given. *)
Definition env {host : Host} (jokeA jokeB : outcome any)
           (quote : outcome ProxyRoutes.Data) : EmotionResult.Env :=
  {| EmotionResult.jokeA := Http.proxyFetch (ProxyRoutes.handleJoke jokeA);
     EmotionResult.jokeB := Http.proxyFetch (ProxyRoutes.handleJoke jokeB);
     EmotionResult.quote := Http.proxyFetch (ProxyRoutes.handleQuote quote);
     EmotionResult.onSuggestionReady := false |}.
End Served.

(* ===================================================================== *)
(** * Part II: properties                                                 *)
(* ===================================================================== *)

(** ** Binary64 order *)

Section FloatOrderFacts.
Import FloatOrder.

Lemma SFcompare_key (x y : spec_float) :
  SFcompare x y = key_compare (sf_key x) (sf_key y).
Proof.
  destruct x as [sx|sx| |sx mx ex], y as [sy|sy| |sy my ey]; simpl;
    try reflexivity;
    try (destruct sx; reflexivity); try (destruct sy; reflexivity);
    try (destruct sx, sy; reflexivity).
  destruct sx, sy; simpl; try reflexivity.
  rewrite Z.compare_opp, (Z.compare_antisym ex ey).
  destruct (ex ?= ey)%Z; reflexivity.
Qed.

Lemma ltb_key x y :
  (x <? y) = match key_compare (fkey x) (fkey y) with
             | Some Lt => true
             | _ => false
             end.
Proof. rewrite FloatAxioms.ltb_spec. unfold SFltb. now rewrite SFcompare_key. Qed.

Lemma leb_key x y :
  (x <=? y) = match key_compare (fkey x) (fkey y) with
              | Some (Lt | Eq) => true
              | _ => false
              end.
Proof.
  rewrite FloatAxioms.leb_spec. unfold SFleb. rewrite SFcompare_key.
  unfold fkey. destruct (key_compare _ _) as [[]|]; reflexivity.
Qed.

Lemma eqb_key x y :
  (x =? y) = match key_compare (fkey x) (fkey y) with
             | Some Eq => true
             | _ => false
             end.
Proof. rewrite FloatAxioms.eqb_spec. unfold SFeqb. now rewrite SFcompare_key. Qed.

Lemma is_nan_key x :
  is_nan x = match fkey x with None => true | Some _ => false end.
Proof.
  unfold is_nan. rewrite eqb_key.
  destruct (fkey x) as [[[a b] c]|]; simpl; auto.
  now rewrite !Z.compare_refl.
Qed.

(** Two numbers with one key are the same number, or are both zeros. *)
Lemma sf_key_inj (a b : spec_float) k :
  sf_key a = Some k -> sf_key b = Some k ->
  a = b \/ (sf_key a = Some (0, 0, 0)%Z /\ sf_key b = Some (0, 0, 0)%Z).
Proof.
  destruct a as [sa|sa| |sa ma ea], b as [sb|sb| |sb mb eb]; simpl;
    intros Ha Hb; try discriminate; auto;
    rewrite <- Ha in Hb; clear Ha.
  all: destruct sa, sb; try discriminate; auto.
  all: left; injection Hb as He Hm; f_equal; [congruence | lia].
Qed.
End FloatOrderFacts.

(** Decides the order facts that follow from the keys alone. *)
Ltac float_order :=
  repeat match goal with
  | H : context [is_nan _] |- _ => rewrite is_nan_key in H
  | H : context [PrimFloat.ltb _ _] |- _ => rewrite ltb_key in H
  | H : context [PrimFloat.leb _ _] |- _ => rewrite leb_key in H
  | H : context [PrimFloat.eqb _ _] |- _ => rewrite eqb_key in H
  end;
  rewrite ?is_nan_key, ?ltb_key, ?leb_key, ?eqb_key;
  repeat match goal with
  | |- context [FloatOrder.fkey ?x] =>
      destruct (FloatOrder.fkey x) as [[[? ?] ?]|]
  | H : context [FloatOrder.fkey ?x] |- _ =>
      destruct (FloatOrder.fkey x) as [[[? ?] ?]|]
  end;
  cbn [FloatOrder.key_compare FloatOrder.lex3_compare] in *;
  repeat match goal with
  | |- context [(?a ?= ?b)%Z] => destruct (Z.compare_spec a b)
  | H : context [(?a ?= ?b)%Z] |- _ => destruct (Z.compare_spec a b)
  end;
  try congruence; try lia.

Section OrderLemmas.

Lemma ltb_leb x y : (x <? y) = true -> (x <=? y) = true.
Proof. intros H. float_order. Qed.

Lemma ltb_trans x y z : (x <? y) = true -> (y <? z) = true -> (x <? z) = true.
Proof. intros H1 H2. float_order. Qed.

Lemma leb_ltb_trans x y z :
  (x <=? y) = true -> (y <? z) = true -> (x <? z) = true.
Proof. intros H1 H2. float_order. Qed.

Lemma ltb_leb_trans x y z :
  (x <? y) = true -> (y <=? z) = true -> (x <? z) = true.
Proof. intros H1 H2. float_order. Qed.

Lemma leb_trans x y z :
  (x <=? y) = true -> (y <=? z) = true -> (x <=? z) = true.
Proof. intros H1 H2. float_order. Qed.

Lemma ltb_irrefl x : (x <? x) = false.
Proof. float_order. Qed.

Lemma leb_not_ltb x y : (x <=? y) = true -> (y <? x) = false.
Proof. intros H. float_order. Qed.

Lemma ltb_not_leb x y : (x <? y) = true -> (y <=? x) = false.
Proof. intros H. float_order. Qed.

Lemma not_ltb_leb x y :
  is_nan x = false -> is_nan y = false -> (x <? y) = false -> (y <=? x) = true.
Proof. intros H1 H2 H3. float_order. Qed.

Lemma not_leb_ltb x y :
  is_nan x = false -> is_nan y = false -> (x <=? y) = false -> (y <? x) = true.
Proof. intros H1 H2 H3. float_order. Qed.

Lemma ltb_not_nan x y : (x <? y) = true -> is_nan x = false /\ is_nan y = false.
Proof. intros H. split; float_order. Qed.

Lemma leb_not_nan x y : (x <=? y) = true -> is_nan x = false /\ is_nan y = false.
Proof. intros H. split; float_order. Qed.

Lemma leb_refl x : is_nan x = false -> (x <=? x) = true.
Proof. intros H. float_order. Qed.

Lemma leb_antisym x y :
  (x <=? y) = true -> (y <=? x) = true ->
  x = y \/ ((x =? 0) = true /\ (y =? 0) = true).
Proof.
  intros H1 H2.
  assert (K : FloatOrder.fkey x = FloatOrder.fkey y
              /\ FloatOrder.fkey x <> None).
  { rewrite leb_key in H1, H2.
    destruct (FloatOrder.fkey x) as [[[a1 a2] a3]|],
             (FloatOrder.fkey y) as [[[b1 b2] b3]|];
      cbn [FloatOrder.key_compare FloatOrder.lex3_compare] in *;
      try discriminate.
    split; [|discriminate].
    destruct (Z.compare_spec a1 b1), (Z.compare_spec b1 a1);
      destruct (Z.compare_spec a2 b2), (Z.compare_spec b2 a2);
      destruct (Z.compare_spec a3 b3), (Z.compare_spec b3 a3);
      try discriminate; try lia; congruence. }
  destruct K as [K N].
  destruct (FloatOrder.fkey x) as [k|] eqn:Kx; [|congruence].
  symmetry in K. unfold FloatOrder.fkey in Kx, K.
  destruct (sf_key_inj _ _ _ Kx K) as [E | [Zx Zy]].
  - left. now apply Prim2SF_inj.
  - right. rewrite !eqb_key. unfold FloatOrder.fkey. rewrite Zx, Zy.
    split; reflexivity.
Qed.
End OrderLemmas.

(** ** [Math.max], [Math.min] and clamps *)

Section Clamps.
Import JS Spec.

(** [Math.max(lo, Math.min(hi, x))] is [x] clamped to [[lo, hi]], for
    every [x] but NaN. *)
Lemma clamp_correct x lo hi :
  is_nan x = false -> (lo <? hi) = true ->
  is_neg_zero lo = false -> (hi =? 0) = false ->
  Math_max lo (Math_min hi x) = clamp x lo hi.
Proof.
  intros Nx Hlh Zlo Zhi.
  destruct (ltb_not_nan _ _ Hlh) as [Nlo Nhi].
  assert (Hhl : (hi <=? lo) = false) by now apply ltb_not_leb.
  unfold Math_min, clamp. rewrite Nhi, Nx. cbn [orb].
  destruct (hi <? x) eqn:Hhx.
  - unfold Math_max. rewrite Nlo, Nhi, Hlh. cbn [orb].
    rewrite (ltb_not_leb _ _ (ltb_trans _ _ _ Hlh Hhx)).
    now rewrite (ltb_leb _ _ Hhx).
  - destruct (x <? hi) eqn:Hxh.
    + unfold Math_max. rewrite Nlo, Nx. cbn [orb].
      rewrite (ltb_not_leb _ _ Hxh).
      destruct (lo <? x) eqn:Hlx.
      * now rewrite (ltb_not_leb _ _ Hlx).
      * rewrite (not_ltb_leb _ _ Nlo Nx Hlx).
        destruct (x <? lo); [reflexivity|]. now rewrite Zlo.
    + assert (E : x = hi).
      { destruct (leb_antisym x hi) as [E|[_ E]]; auto.
        - now apply not_ltb_leb.
        - now apply not_ltb_leb.
        - congruence. }
      subst x. destruct (is_neg_zero hi); unfold Math_max;
        rewrite Nlo, Nhi, Hlh; cbn [orb];
        now rewrite Hhl, (leb_refl _ Nhi).
Qed.

Lemma clamp_within x lo hi :
  is_nan x = false -> (lo <? hi) = true -> within (clamp x lo hi) lo hi.
Proof.
  intros Nx Hlh. destruct (ltb_not_nan _ _ Hlh) as [Nlo Nhi].
  unfold clamp, within.
  destruct (x <=? lo) eqn:H1.
  - split; [now apply leb_refl | now apply ltb_leb].
  - destruct (hi <=? x) eqn:H2.
    + split; [now apply ltb_leb | now apply leb_refl].
    + split; apply ltb_leb; now apply not_leb_ltb.
Qed.

(** A NaN goes through both functions. *)
Lemma Math_max_min_nan lo hi : Math_max lo (Math_min hi nan) = nan.
Proof.
  unfold Math_min. replace (is_nan nan) with true by reflexivity.
  rewrite orb_true_r. unfold Math_max.
  replace (is_nan nan) with true by reflexivity. now rewrite orb_true_r.
Qed.

(** The only NaN is [nan]. *)
Lemma is_nan_eq x : is_nan x = true -> x = nan.
Proof.
  intros H. apply Prim2SF_inj. rewrite is_nan_key in H.
  unfold FloatOrder.fkey in H.
  destruct (Prim2SF x); try discriminate. reflexivity.
Qed.
End Clamps.

(** ** [getTopEmotion] *)

Section TopEmotion.
Import JS CameraCapture.

(** The loop of [getTopEmotion], from any starting [top]: either no entry
    beat it, or the result is the first entry that beats it and is not
    beaten in turn. *)
Lemma pick_fold (es : Expressions) : forall t,
  let r := fold_left pick es t in
  (r = t /\ forall k w, In (k, VNumber w) es -> (value t <? w) = false)
  \/ (exists before k v after,
        es = (before ++ (k, VNumber v) :: after)%list
        /\ r = {| key := k; value := v |}
        /\ (value t <? v) = true
        /\ (forall k' w, In (k', VNumber w) before -> (v <=? w) = false)
        /\ (forall k' w, In (k', VNumber w) after -> (v <? w) = false)).
Proof.
  induction es as [|[k0 a0] es IH]; intros t; cbn zeta.
  - left. split; [reflexivity | intros k w []].
  - cbn [fold_left].
    assert (Keep : pick t (k0, a0) = t ->
              (forall w, a0 = VNumber w -> (value t <? w) = false) ->
              (fold_left pick es (pick t (k0, a0)) = t /\
               (forall k w, In (k, VNumber w) ((k0, a0) :: es) ->
                            (value t <? w) = false)) \/
              (exists before k v after,
                  (k0, a0) :: es = (before ++ (k, VNumber v) :: after)%list /\
                  fold_left pick es (pick t (k0, a0)) = {| key := k; value := v |} /\
                  (value t <? v) = true /\
                  (forall k' w, In (k', VNumber w) before -> (v <=? w) = false) /\
                  (forall k' w, In (k', VNumber w) after -> (v <? w) = false))).
    { intros E Hd. rewrite E.
      destruct (IH t) as [[R A] | (before & k & v & after & Ees & R & Lt & B & A)].
      - left. split; [exact R|]. intros k w [H|H]; [|eauto].
        injection H as _ ->. now apply Hd.
      - right. exists ((k0, a0) :: before), k, v, after.
        repeat split; auto.
        + now rewrite Ees.
        + intros k' w [H|H]; [|eauto].
          injection H as _ ->.
          destruct (v <=? w) eqn:Le; [|reflexivity].
          pose proof (Hd w eq_refl) as Hd'.
          now rewrite (ltb_leb_trans _ _ _ Lt Le) in Hd'. }
    destruct a0 as [| |b|w0|s|s n]; try (apply Keep; [reflexivity | discriminate]).
    cbn [pick]. destruct (value t <? w0) eqn:Hw.
    + destruct (IH {| key := k0; value := w0 |})
        as [[R A] | (before & k & v & after & Ees & R & Lt & B & A)]; right.
      * exists [], k0, w0, es. repeat split; auto. intros k' w [].
      * exists ((k0, VNumber w0) :: before), k, v, after. cbn [value] in Lt.
        repeat split; auto.
        -- now rewrite Ees.
        -- exact (ltb_trans _ _ _ Hw Lt).
        -- intros k' w [H|H]; [|eauto].
           injection H as _ <-. now apply ltb_not_leb.
    + cbn [pick] in Keep. rewrite Hw in Keep. apply Keep; [reflexivity|].
      intros w [= <-]. exact Hw.
Qed.

(** The value [getTopEmotion] returns is never NaN and never below [-1]. *)
Lemma getTopEmotion_value expressions :
  (-1 <=? value (getTopEmotion expressions)) = true.
Proof.
  destruct expressions as [es|]; [|reflexivity].
  unfold getTopEmotion.
  destruct (pick_fold es {| key := "neutral"; value := -1 |})
    as [[R _] | (before & k & v & after & _ & R & Lt & _)];
    cbn zeta in R; rewrite R; [reflexivity|].
  now apply ltb_leb.
Qed.

Lemma getTopEmotion_not_nan expressions :
  is_nan (value (getTopEmotion expressions)) = false.
Proof. exact (proj2 (leb_not_nan _ _ (getTopEmotion_value expressions))). Qed.
End TopEmotion.

(** ** The shape of a run of [captureAndDetect] *)

Section RunShape.
Import JS Eff CameraCapture.
Context {host : Host}.

Lemma detections_app t1 t2 :
  detections (t1 ++ t2) = (detections t1 ++ detections t2)%list.
Proof. apply flat_map_app. Qed.

(** The background analysis never throws into its caller. *)
Lemma background_returns env img qe qc :
  snd (background env img qe qc) = Returns tt.
Proof.
  unfold background, finally, try_catch.
  destruct (bind _ _) as [t [[]|e]]; reflexivity.
Qed.

(** A run in which the frame is captured and decoded: the provisional
    result is published, then the background analysis runs. *)
Lemma captureAndDetect_captured env img :
  webcam env = true -> getScreenshot env = Some img -> img <> "" ->
  imageLoad env = true ->
  let q := quick (quickDetection env) in
  captureAndDetect env =
    ([SetError None; SetDetecting true;
      OnDetected {| emotion := fst q; imageSrc := img; confidence := snd q |}]
     ++ trace (background env img (fst q) (snd q)))%list.
Proof.
  intros Hw Hs Hne Hl q. unfold captureAndDetect.
  rewrite Hw, Hs, Hl. cbn [negb no_image].
  apply String.eqb_neq in Hne. rewrite Hne.
  pose proof (background_returns env img (fst q) (snd q)) as Hb.
  fold q. cbv beta iota delta [bind ret emit trace try_catch].
  destruct (background env img (fst q) (snd q)) as [t r].
  cbn [snd] in Hb. subst r. reflexivity.
Qed.

Lemma provisional_result env img :
  webcam env = true -> getScreenshot env = Some img -> img <> "" ->
  imageLoad env = true ->
  let q := quick (quickDetection env) in
  detections (captureAndDetect env) =
    {| emotion := fst q; imageSrc := img; confidence := snd q |}
      :: detections (trace (background env img (fst q) (snd q))).
Proof.
  intros Hw Hs Hne Hl q.
  rewrite (captureAndDetect_captured env img Hw Hs Hne Hl).
  rewrite detections_app. reflexivity.
Qed.
End RunShape.

(** ** The background analysis, stage by stage *)

Section BackgroundShape.
Import JS Eff CameraCapture.
Context {host : Host}.

Lemma sample_silent env img accum i : fst (sample env img accum i) = [].
Proof.
  unfold sample. destruct (no_image _); [reflexivity|].
  destruct (detect (frame env i)) as [e|m]; reflexivity.
Qed.

Lemma sampleFrames_silent env img indices :
  forall accum, fst (sampleFrames env img accum indices) = [].
Proof.
  induction indices as [|i rest IH]; intros accum; [reflexivity|].
  cbn [sampleFrames]. unfold bind.
  pose proof (sample_silent env img accum i) as Hs.
  destruct (sample env img accum i) as [t [a|m]]; cbn [fst] in Hs; subst t.
  - specialize (IH a). destruct (sampleFrames env img a rest) as [t' r].
    cbn [fst] in IH. now subst t'.
  - reflexivity.
Qed.

(** The remote escalation sends its request exactly when the label is
    "neutral", and always hands on a result: the adopted one, or the one
    it was given. *)
Lemma remoteFallback_run env img averaged final :
  remoteFallback env img averaged final =
    (if String.eqb (fst final) "neutral" then [FetchClassify img averaged] else [],
     Returns
       (if String.eqb (fst final) "neutral" then
          match classify env with
          | Responded true (Returns data) =>
              let conf := Math_max 0 (Math_min 1
                            (Number (nullish (data_confidence data) (VNumber 0)))) in
              if truthy (data_emotion data) && (0.2 <=? conf)
              then (String_ (data_emotion data), Math_max (snd final) conf)
              else final
          | _ => final
          end
        else final)).
Proof.
  unfold remoteFallback.
  destruct (String.eqb (fst final) "neutral"); [|reflexivity].
  destruct (classify env) as [m|[|] [data|m]]; try reflexivity.
  cbv beta iota delta [bind emit try_catch await ret].
  destruct (truthy (data_emotion data) && _); reflexivity.
Qed.

Lemma finalResult_detections env img accum :
  detections (fst (finalResult env img accum)) = []
  /\ exists final, snd (finalResult env img accum) = Returns final.
Proof.
  unfold finalResult. rewrite remoteFallback_run. cbn [fst snd]. split.
  - destruct (String.eqb _ _); reflexivity.
  - eexists. reflexivity.
Qed.

(** The only [onDetected] call of the background analysis is the
    arbiter's. *)
Lemma background_detections env img qe qc t accum t' final :
  sampleFrames env img [] (seq 0 (frames (fullModelsLoaded env))) = (t, Returns accum) ->
  finalResult env img accum = (t', Returns final) ->
  detections (trace (background env img qe qc))
  = detections (trace (arbiter qe qc img final)).
Proof.
  intros Hs Hf. unfold background, finally, try_catch, bind.
  rewrite Hs, Hf.
  pose proof (sampleFrames_silent env img (seq 0 (frames (fullModelsLoaded env))) [])
    as St. rewrite Hs in St. cbn [fst] in St. subst t.
  pose proof (proj1 (finalResult_detections env img accum)) as Ft.
  rewrite Hf in Ft. cbn [fst] in Ft.
  unfold arbiter. destruct final as [fe fc].
  destruct (negb (String.eqb fe "") && negb (String.eqb fe qe));
    [destruct (needsUpdate qc fc)|];
    cbn [emit ret trace fst snd app]; rewrite ?detections_app, ?Ft;
    cbn; rewrite ?app_nil_r, ?detections_app, ?Ft; reflexivity.
Qed.
End BackgroundShape.

(** ** The arbiter *)

Section Arbiter.
Import JS Eff CameraCapture.

(** C1: in a run whose background analysis computed a final result
    [(finalEmotion, finalConfidence)] after the provisional result
    [(quickEmotion, quickConfidence)] was published: when the two labels
    are equal [onDetected] is called once only; when they differ and the
    final one is not empty, it is called a second time, with the final
    result, if and only if [finalConfidence >= quickConfidence + 0.15] or
    [finalConfidence >= 0.5]. *)
Theorem arbiter_policy (host : Host) env img t accum t' finalEmotion finalConfidence :
  webcam env = true -> getScreenshot env = Some img -> img <> "" ->
  imageLoad env = true ->
  sampleFrames env img [] (seq 0 (frames (fullModelsLoaded env))) = (t, Returns accum) ->
  finalResult env img accum = (t', Returns (finalEmotion, finalConfidence)) ->
  let quickEmotion := fst (quick (quickDetection env)) in
  let quickConfidence := snd (quick (quickDetection env)) in
  let provisional :=
    {| emotion := quickEmotion; imageSrc := img; confidence := quickConfidence |} in
  let final :=
    {| emotion := finalEmotion; imageSrc := img; confidence := finalConfidence |} in
  let decisive :=
    (quickConfidence + 0.15 <=? finalConfidence) = true
    \/ (0.5 <=? finalConfidence) = true in
  (finalEmotion = quickEmotion ->
     detections (captureAndDetect env) = [provisional])
  /\ (finalEmotion <> quickEmotion -> finalEmotion <> "" ->
        (decisive -> detections (captureAndDetect env) = [provisional; final])
        /\ (~ decisive -> detections (captureAndDetect env) = [provisional])).
Proof.
  intros Hw Hs Hne Hl Hsf Hfr qe qc provisional final decisive.
  rewrite (provisional_result env img Hw Hs Hne Hl). fold qe qc provisional.
  rewrite (background_detections env img qe qc t accum t' _ Hsf Hfr).
  unfold arbiter. split.
  - intros ->. rewrite String.eqb_refl, andb_false_r. reflexivity.
  - intros Hd He.
    apply String.eqb_neq in Hd, He. rewrite Hd, He. cbn [negb andb].
    unfold needsUpdate. subst decisive. split.
    + intros Hdec. apply orb_true_iff in Hdec. rewrite Hdec. reflexivity.
    + intros Hdec. rewrite <- orb_true_iff in Hdec.
      apply not_true_is_false in Hdec. rewrite Hdec. reflexivity.
Qed.

Lemma arbiter_policy_witness :
  detections (@captureAndDetect Spec.exampleHost Examples.happyThenSad)
  = [ {| emotion := "happy"; imageSrc := Examples.photo; confidence := 0.4 |};
      {| emotion := "sad"; imageSrc := Examples.photo; confidence := 0.5 |} ].
Proof.
  refine (proj1 (proj2 (arbiter_policy Spec.exampleHost Examples.happyThenSad
                          Examples.photo [] [("sad", 0.5)] [] "sad" 0.5
                          eq_refl eq_refl _ eq_refl eq_refl eq_refl) _ _) _).
  - discriminate.
  - discriminate.
  - discriminate.
  - right. reflexivity.
Defined.

(** The arbiter's decision on the cases of section 8 of the
    specification. *)
Example arbiter_floor :
  needsUpdate 0.4 0.5 = true /\ (0.4 + 0.15 <=? 0.5) = false.
Proof. split; reflexivity. Qed.

Example arbiter_same_label :
  trace (arbiter "sad" 0.4 Examples.photo ("sad", 0.5)) = [].
Proof. reflexivity. Qed.
End Arbiter.


(** ** The top-label picker and the fast estimator *)

Section FastEstimator.
Import JS Eff CameraCapture Spec.

(** The picker starts from the sentinel [("neutral", -1)]: either no
    numeric entry is above [-1] and the sentinel is returned, or the result
    is an entry above [-1] that no entry exceeds and that every entry before
    it falls short of. *)
Lemma getTopEmotion_cases (es : Expressions) :
  (getTopEmotion (Some es) = {| key := "neutral"; value := -1 |}
   /\ forall k w, In (k, VNumber w) es -> (-1 <? w) = false)
  \/ (exists before k v after,
        es = (before ++ (k, VNumber v) :: after)%list
        /\ getTopEmotion (Some es) = {| key := k; value := v |}
        /\ (-1 <? v) = true
        /\ (forall k' w, In (k', VNumber w) es -> (v <? w) = false)
        /\ (forall k' w, In (k', VNumber w) before -> (v <=? w) = false)).
Proof.
  unfold getTopEmotion.
  destruct (pick_fold es {| key := "neutral"; value := -1 |})
    as [[R A] | (before & k & v & after & Ees & R & Lt & B & A)];
    cbn zeta in R; cbn [value] in *.
  - left. split; assumption.
  - right. exists before, k, v, after. repeat split; auto.
    intros k' w Hin. rewrite Ees in Hin. apply in_app_or in Hin.
    destruct Hin as [Hin | [Hin | Hin]].
    + specialize (B k' w Hin).
      destruct (v <? w) eqn:E; [|reflexivity].
      now rewrite (ltb_leb _ _ E) in B.
    + injection Hin as _ <-. apply ltb_irrefl.
    + eauto.
Qed.

(** C5: on a vector with an entry above [0], the picker returns an entry of
    the vector whose value is above [0] and is the greatest: no entry
    exceeds it, so every entry above [0] is at most it; and of the entries
    with that value it is the first-seen one: every entry before it is
    strictly smaller (or NaN, which the comparison skips). *)
Theorem getTopEmotion_greatest (es : Expressions) k0 w0 :
  In (k0, VNumber w0) es -> (0 <? w0) = true ->
  exists before k v after,
    es = (before ++ (k, VNumber v) :: after)%list
    /\ getTopEmotion (Some es) = {| key := k; value := v |}
    /\ (0 <? v) = true
    /\ (forall k' w, In (k', VNumber w) es -> (v <? w) = false)
    /\ (forall k' w, In (k', VNumber w) es -> (0 <? w) = true -> (w <=? v) = true)
    /\ (forall k' w, In (k', VNumber w) before ->
          (v <=? w) = false /\ (is_nan w = false -> (w <? v) = true)).
Proof.
  intros Hin Hpos.
  destruct (getTopEmotion_cases es)
    as [[_ A] | (before & k & v & after & Ees & R & Lt & G & B)].
  - specialize (A _ _ Hin).
    assert (H : (-1 <? w0) = true)
      by (apply (ltb_trans _ 0); [reflexivity | assumption]).
    congruence.
  - destruct (ltb_not_nan _ _ Lt) as [_ Nv].
    assert (Pv : (0 <? v) = true).
    { specialize (G _ _ Hin). destruct (ltb_not_nan _ _ Hpos) as [_ Nw].
      apply (ltb_leb_trans _ w0); [assumption|]. now apply not_ltb_leb. }
    exists before, k, v, after. repeat split; auto.
    + intros k' w Hw Pw. destruct (ltb_not_nan _ _ Pw) as [_ Nw].
      apply not_ltb_leb; eauto.
    + eauto.
    + intros Nw. apply not_leb_ltb; eauto.
Qed.

Lemma getTopEmotion_greatest_witness :
  exists before k v after,
    Examples.frownScores = (before ++ (k, VNumber v) :: after)%list
    /\ getTopEmotion (Some Examples.frownScores) = {| key := k; value := v |}
    /\ (0 <? v) = true
    /\ (forall k' w, In (k', VNumber w) Examples.frownScores -> (v <? w) = false)
    /\ (forall k' w, In (k', VNumber w) Examples.frownScores ->
          (0 <? w) = true -> (w <=? v) = true)
    /\ (forall k' w, In (k', VNumber w) before ->
          (v <=? w) = false /\ (is_nan w = false -> (w <? v) = true)).
Proof.
  exact (getTopEmotion_greatest Examples.frownScores "sad" 0.1
           (or_intror (or_intror (or_introl eq_refl))) eq_refl).
Defined.

(** The tie of the claim on an example: two labels share the greatest
    score and the first-seen one is returned. *)
Example getTopEmotion_tie :
  getTopEmotion (Some [("sad", VNumber 0.3); ("happy", VNumber 0.4);
                       ("angry", VNumber 0.4)])
  = {| key := "happy"; value := 0.4 |}.
Proof. reflexivity. Qed.

(** C6: the provisional result of a run whose fast detection gave a top
    score [s] with label [L]: its emotion is "neutral" when [s < 0.2] and
    [L] when [s >= 0.2] (one of the two holds), and its confidence is [s]
    clamped to [[0.01, 0.99]]. *)
Theorem fast_estimator_postcondition (host : Host) env img qExpr :
  webcam env = true -> getScreenshot env = Some img -> img <> "" ->
  imageLoad env = true ->
  quickDetection env = Returns qExpr ->
  let s := value (getTopEmotion qExpr) in
  let L := key (getTopEmotion qExpr) in
  exists provisional rest,
    detections (captureAndDetect env) = provisional :: rest
    /\ imageSrc provisional = img
    /\ ((s <? 0.2) = true -> emotion provisional = "neutral")
    /\ ((0.2 <=? s) = true -> emotion provisional = L)
    /\ ((s <? 0.2) = true \/ (0.2 <=? s) = true)
    /\ confidence provisional = clamp s 0.01 0.99.
Proof.
  intros Hw Hs Hne Hl Hq s L.
  rewrite (provisional_result env img Hw Hs Hne Hl), Hq.
  eexists _, _. split; [reflexivity|]. cbn [imageSrc emotion confidence quick fst snd].
  fold s L. pose proof (getTopEmotion_not_nan qExpr) as Ns. fold s in Ns.
  repeat split.
  - intros Lt. now rewrite (ltb_not_leb _ _ Lt).
  - intros Le. now rewrite Le.
  - destruct (0.2 <=? s) eqn:Le; [now right | left].
    now apply not_leb_ltb.
  - now apply clamp_correct.
Qed.

Lemma fast_estimator_postcondition_witness :
  exists provisional rest,
    detections (@captureAndDetect exampleHost Examples.faintSmile)
    = provisional :: rest
    /\ imageSrc provisional = Examples.photo
    /\ ((0.21 <? 0.2) = true -> emotion provisional = "neutral")
    /\ ((0.2 <=? 0.21) = true -> emotion provisional = "happy")
    /\ ((0.21 <? 0.2) = true \/ (0.2 <=? 0.21) = true)
    /\ confidence provisional = clamp 0.21 0.01 0.99.
Proof.
  refine (fast_estimator_postcondition exampleHost Examples.faintSmile
            Examples.photo (Some [("happy", VNumber 0.21)])
            eq_refl eq_refl _ eq_refl eq_refl).
  discriminate.
Defined.

(** The two cases of section 8 of the specification. *)
Example fast_estimator_019 :
  quick (Returns (Some [("happy", VNumber 0.19)])) = ("neutral", 0.19).
Proof. reflexivity. Qed.

Example fast_estimator_021 :
  quick (Returns (Some [("happy", VNumber 0.21)])) = ("happy", 0.21).
Proof. reflexivity. Qed.

(** C10: [getTopEmotion] of an absent vector is [("neutral", 0)], of an
    empty one [("neutral", -1)]; and when the fast detector finds no face,
    the provisional result published is "neutral" with confidence [0.01],
    the floor of the clamp, which is not the top score [0]. *)
Theorem no_face_provisional_result :
  getTopEmotion None = {| key := "neutral"; value := 0 |}
  /\ getTopEmotion (Some []) = {| key := "neutral"; value := -1 |}
  /\ (forall (host : Host) env img,
        webcam env = true -> getScreenshot env = Some img -> img <> "" ->
        imageLoad env = true ->
        quickDetection env = Returns None ->
        exists rest,
          detections (captureAndDetect env)
          = {| emotion := "neutral"; imageSrc := img; confidence := 0.01 |} :: rest)
  /\ (0.01 =? value (getTopEmotion None)) = false.
Proof.
  split; [reflexivity|]. split; [reflexivity|]. split; [|reflexivity].
  intros host env img Hw Hs Hne Hl Hq.
  rewrite (provisional_result env img Hw Hs Hne Hl), Hq.
  eexists. reflexivity.
Qed.

Lemma no_face_provisional_result_witness :
  exists rest,
    detections (@captureAndDetect exampleHost Examples.noFace)
    = {| emotion := "neutral"; imageSrc := Examples.photo; confidence := 0.01 |}
        :: rest.
Proof.
  refine (proj1 (proj2 (proj2 no_face_provisional_result))
            exampleHost Examples.noFace Examples.photo
            eq_refl eq_refl _ eq_refl eq_refl).
  discriminate.
Defined.
End FastEstimator.

(** ** The landmark heuristics *)

Section Heuristics.
Import JS Eff CameraCapture Spec.

(** C2, as the specification states it, fails: on the frowning face of the
    examples the mouth corners are depressed by 0.05 (the "sad" condition
    holds), the brow gap is 0.04 and the mouth width 0.40 (the "angry"
    condition holds too), and the label after the heuristics is "angry". *)
Lemma angry_overrides_sad :
  exists m,
    @metrics exampleHost Examples.frown = Some m
    /\ @sadCondition exampleHost m Examples.frownScores = true
    /\ angryCondition m = true
    /\ @refine exampleHost Examples.frowning ("neutral", 0.7) = ("angry", 0.7)
    /\ fst (@refine exampleHost Examples.frowning ("neutral", 0.7)) <> "sad".
Proof.
  eexists. split; [vm_compute; reflexivity|].
  repeat split; try (vm_compute; reflexivity).
  vm_compute. discriminate.
Qed.

(** C2, as the code has it.  The heuristics run when the full tier is
    loaded and the detector returns landmarks (otherwise the label and the
    confidence are left as they are).  The "sad" override (mouth-corner
    depression > 0.045 or "sad" score > 0.18) comes first and sets the
    confidence to max(current, [sad ?? 0.6]); the "angry" override (brow gap
    > 0.03 and mouth width < 0.45) is a second, independent test on the
    outcome of the first and sets the confidence to max(confidence so far,
    [angry ?? 0.6]).  So the label is "angry" whenever the "angry" condition
    holds, "sad" when only the "sad" condition holds, and unchanged when
    neither does. *)
Theorem heuristics_precedence (host : Host) (m : Metrics) (exprs : Expressions)
        (label : string) (current : number) :
  let sad := Number (nullish (prop "sad" exprs) (VNumber 0.6)) in
  let angry := Number (nullish (prop "angry" exprs) (VNumber 0.6)) in
  (sadCondition m exprs = true <->
     (0.045 <? mouthCornerDepression m) = true
     \/ (0.18 <? Number (nullish (prop "sad" exprs) (VNumber 0))) = true)
  /\ (angryCondition m = true <->
        (0.03 <? browToEye m) = true /\ (mouthWidthNorm m <? 0.45) = true)
  /\ (sadCondition m exprs = true -> angryCondition m = false ->
        heuristics m exprs (label, current) = ("sad", Math_max current sad))
  /\ (sadCondition m exprs = true -> angryCondition m = true ->
        heuristics m exprs (label, current)
        = ("angry", Math_max (Math_max current sad) angry))
  /\ (sadCondition m exprs = false -> angryCondition m = true ->
        heuristics m exprs (label, current) = ("angry", Math_max current angry))
  /\ (sadCondition m exprs = false -> angryCondition m = false ->
        heuristics m exprs (label, current) = (label, current))
  /\ (forall env,
        fullModelsLoaded env = false ->
        refine env (label, current) = (label, current))
  /\ (forall env lm,
        fullModelsLoaded env = true ->
        landmarkDetection env = Returns (Some (lm, exprs)) ->
        metrics lm = Some m ->
        refine env (label, current) = heuristics m exprs (label, current)).
Proof.
  intros sad angry. unfold heuristics, sadOverride, angryOverride.
  split; [unfold sadCondition; apply orb_true_iff|].
  split; [unfold angryCondition; apply andb_true_iff|].
  repeat split.
  - intros -> ->. reflexivity.
  - intros -> ->. reflexivity.
  - intros -> ->. reflexivity.
  - intros -> ->. reflexivity.
  - intros env Hf. unfold refine. now rewrite Hf.
  - intros env lm Hf Hd Hm. unfold refine. now rewrite Hf, Hd, Hm.
Qed.

Lemma heuristics_precedence_witness :
  @heuristics exampleHost
     {| mouthCornerDepression := 0.05; mouthWidthNorm := 0.6; browToEye := 0.01 |}
     Examples.frownScores ("happy", 0.4)
  = ("sad", 0.4).
Proof.
  refine (proj1 (proj2 (proj2
            (heuristics_precedence exampleHost
               {| mouthCornerDepression := 0.05; mouthWidthNorm := 0.6;
                  browToEye := 0.01 |}
               Examples.frownScores "happy" 0.4))) eq_refl eq_refl).
Defined.

(** Section 8 of the specification: a depression of 0.05 forces "sad"
    whatever the averaged label is, when the brow and the mouth do not
    look angry. *)
Example depression_forces_sad (host : Host) exprs label current :
  fst (heuristics
         {| mouthCornerDepression := 0.05; mouthWidthNorm := 0.6; browToEye := 0.01 |}
         exprs (label, current)) = "sad".
Proof. reflexivity. Qed.
End Heuristics.

(** ** The remote escalation *)

Section RemoteFallback.
Import JS Eff CameraCapture Spec.

(** A confidence the route may answer, once clamped by the client. *)
Lemma clamp_unit_id c :
  (0.2 <=? c) = true -> (c <=? 1) = true -> Math_max 0 (Math_min 1 c) = c.
Proof.
  intros Hlo Hhi. destruct (leb_not_nan _ _ Hlo) as [_ Nc].
  rewrite clamp_correct by (assumption || reflexivity).
  unfold clamp.
  assert (Hpos : (0 <? c) = true)
    by (apply (ltb_leb_trans _ 0.2); [reflexivity | assumption]).
  rewrite (ltb_not_leb _ _ Hpos).
  destruct (1 <=? c) eqn:H1; [|reflexivity].
  destruct (leb_antisym c 1 Hhi H1) as [E | [_ E]]; [now symmetry | discriminate E].
Qed.

Lemma clamp_unit_low c :
  (0.2 <=? c) = false -> (0.2 <=? Math_max 0 (Math_min 1 c)) = false.
Proof.
  intros Hlo. destruct (is_nan c) eqn:Nc.
  - apply is_nan_eq in Nc. subst c. now rewrite Math_max_min_nan.
  - rewrite clamp_correct by (assumption || reflexivity).
    unfold clamp. destruct (c <=? 0); [reflexivity|].
    destruct (1 <=? c) eqn:H1; [|assumption].
    assert (H : (0.2 <=? c) = true)
      by (apply (leb_trans _ 1); [reflexivity | assumption]).
    congruence.
Qed.

(** A confidence of at least 0.2 is still one after the client's clamp. *)
Lemma clamp_unit_high c :
  (0.2 <=? c) = true ->
  Math_max 0 (Math_min 1 c) = clamp c 0 1 /\ (0.2 <=? clamp c 0 1) = true.
Proof.
  intros Hlo. destruct (leb_not_nan _ _ Hlo) as [_ Nc].
  split; [apply clamp_correct; (assumption || reflexivity)|].
  unfold clamp.
  assert (Hpos : (0 <? c) = true)
    by (apply (ltb_leb_trans _ 0.2); [reflexivity | assumption]).
  rewrite (ltb_not_leb _ _ Hpos).
  destruct (1 <=? c); [reflexivity | assumption].
Qed.

(** A run whose frames were sampled: the background analysis sends the
    request of [finalResult], lets the arbiter decide on its result, and
    releases the busy flag. *)
Lemma background_trace (host : Host) env img qe qc t accum :
  sampleFrames env img [] (seq 0 (frames (fullModelsLoaded env))) = (t, Returns accum) ->
  exists final,
    snd (finalResult env img accum) = Returns final
    /\ trace (background env img qe qc)
       = (fst (finalResult env img accum)
          ++ trace (arbiter qe qc img final) ++ [SetDetecting false])%list.
Proof.
  intros Hs.
  pose proof (sampleFrames_silent env img (seq 0 (frames (fullModelsLoaded env))) [])
    as St. rewrite Hs in St. cbn [fst] in St. subst t.
  destruct (finalResult_detections env img accum) as [_ [final Hf]].
  exists final. split; [exact Hf|].
  unfold background, finally, try_catch, bind. rewrite Hs.
  destruct (finalResult env img accum) as [t' r]. cbn [snd] in Hf. subst r.
  cbn [fst]. destruct (arbiter qe qc img final) as [ta [[]|m]];
    cbn [trace fst snd emit ret app]; rewrite ?app_nil_r, <- ?app_assoc; reflexivity.
Qed.

Lemma arbiter_no_request qe qc img final :
  classifyCalls (trace (arbiter qe qc img final)) = [].
Proof.
  unfold arbiter. destruct final as [fe fc].
  destruct (negb (String.eqb fe "") && negb (String.eqb fe qe));
    [destruct (needsUpdate qc fc)|]; reflexivity.
Qed.

(** C8, as the specification states it, fails.  Nobody is in front of the
    camera: the label after averaging and heuristics is "neutral", with
    confidence 0.  The route's response carries the label "sad" with a
    confidence of 1.7, which is at least 0.2.  The label is adopted, and
    the run publishes it, with the confidence 1: the maximum of the
    current and the returned confidence is 1.7. *)
Lemma remote_confidence_clamped :
  sampleFrames Examples.remoteOverconfident Examples.photo [] (seq 0 1)
  = ([], Returns [])
  /\ @refine exampleHost Examples.remoteOverconfident (deepLabel (average 1 []))
     = ("neutral", 0)
  /\ classify Examples.remoteOverconfident
     = Responded true (Returns {| data_emotion := VString "sad";
                                  data_confidence := VNumber 1.7 |})
  /\ (0.2 <=? 1.7) = true
  /\ @finalResult exampleHost Examples.remoteOverconfident Examples.photo []
     = ([FetchClassify Examples.photo []], Returns ("sad", 1))
  /\ detections (@captureAndDetect exampleHost Examples.remoteOverconfident)
     = [ {| emotion := "neutral"; imageSrc := Examples.photo; confidence := 0.01 |};
         {| emotion := "sad"; imageSrc := Examples.photo; confidence := 1 |} ]
  /\ Math_max 0 1.7 = 1.7
  /\ (1 =? 1.7) = false.
Proof. repeat split. Qed.

(** C8, as the code has it, on a run whose frames were sampled; [label] and
    [current] are the label and the confidence after averaging and
    heuristics.  The request to the classifier route is made if and only
    if [label] is "neutral".  The confidence of a response is read as
    [Number(confidence ?? 0)], so an absent one counts as 0.  When the
    response carries a label and that number is at least 0.2, the label is
    adopted and the confidence becomes the maximum of [current] and the
    returned confidence clamped to [[0, 1]]; in every other case (a
    smaller or absent confidence, NaN, no label, a response that is not
    [ok] or cannot be read, no response) the final result is
    [("neutral", current)], unchanged.  Either way the run publishes the
    provisional result and then what the arbiter makes of the final one. *)
Theorem remote_fallback_escalation (host : Host) env img t accum :
  webcam env = true -> getScreenshot env = Some img -> img <> "" ->
  imageLoad env = true ->
  sampleFrames env img [] (seq 0 (frames (fullModelsLoaded env))) = (t, Returns accum) ->
  let averaged := average (frames (fullModelsLoaded env)) accum in
  let label := fst (refine env (deepLabel averaged)) in
  let current := snd (refine env (deepLabel averaged)) in
  let quickEmotion := fst (quick (quickDetection env)) in
  let quickConfidence := snd (quick (quickDetection env)) in
  let provisional :=
    {| emotion := quickEmotion; imageSrc := img; confidence := quickConfidence |} in
  let final_is (final : string * number) :=
    snd (finalResult env img accum) = Returns final
    /\ detections (captureAndDetect env)
       = provisional
           :: detections (trace (arbiter quickEmotion quickConfidence img final)) in
  (classifyCalls (captureAndDetect env) = [(img, averaged)] <-> label = "neutral")
  /\ (label <> "neutral" ->
        classifyCalls (captureAndDetect env) = [] /\ final_is (label, current))
  /\ (label = "neutral" ->
        (forall data,
            classify env = Responded true (Returns data) ->
            let returned := Number (nullish (data_confidence data) (VNumber 0)) in
            (truthy (data_emotion data) = true -> (0.2 <=? returned) = true ->
               final_is (String_ (data_emotion data),
                         Math_max current (clamp returned 0 1)))
            /\ (truthy (data_emotion data) = false \/ (0.2 <=? returned) = false ->
                  final_is ("neutral", current)))
        /\ (forall e c,
              classify env = Responded true
                               (Returns {| data_emotion := VString e;
                                           data_confidence := VNumber c |}) ->
              e <> "" -> (0.2 <=? c) = true ->
              final_is (e, Math_max current (clamp c 0 1)))
        /\ (forall e absent,
              classify env = Responded true
                               (Returns {| data_emotion := e;
                                           data_confidence := absent |}) ->
              absent = VUndefined \/ absent = VNull ->
              final_is ("neutral", current))
        /\ ((forall data, classify env <> Responded true (Returns data)) ->
              final_is ("neutral", current))).
Proof.
  intros Hw Hs Hne Hl Hsf averaged.
  destruct (refine env (deepLabel averaged)) as [label current] eqn:Er.
  intros label' current'. cbn [fst snd] in label', current'. subst label' current'.
  intros qe qc provisional final_is.
  destruct (background_trace host env img qe qc t accum Hsf) as (final & Hf & Hb).
  assert (Pub : forall f, snd (finalResult env img accum) = Returns f -> final_is f).
  { intros f Ef. split; [exact Ef|].
    rewrite (provisional_result env img Hw Hs Hne Hl). fold qe qc provisional.
    f_equal. rewrite Hf in Ef. injection Ef as <-.
    destruct (finalResult env img accum) as [t' r] eqn:Ef. cbn [snd] in Hf. subst r.
    exact (background_detections env img qe qc t accum t' final Hsf Ef). }
  assert (Calls : classifyCalls (captureAndDetect env)
                  = if String.eqb label "neutral" then [(img, averaged)] else []).
  { rewrite (captureAndDetect_captured env img Hw Hs Hne Hl). cbv zeta. fold qe qc.
    rewrite Hb. unfold classifyCalls at 1. rewrite !flat_map_app.
    fold (classifyCalls (trace (arbiter qe qc img final))).
    rewrite arbiter_no_request. unfold finalResult. rewrite remoteFallback_run.
    fold averaged. rewrite Er. cbn [fst].
    destruct (String.eqb label "neutral"); reflexivity. }
  assert (Res : snd (finalResult env img accum)
                = Returns
                    (if String.eqb label "neutral" then
                       match classify env with
                       | Responded true (Returns data) =>
                           let conf := Math_max 0 (Math_min 1
                                         (Number (nullish (data_confidence data)
                                                          (VNumber 0)))) in
                           if truthy (data_emotion data) && (0.2 <=? conf)
                           then (String_ (data_emotion data), Math_max current conf)
                           else (label, current)
                       | _ => (label, current)
                       end
                     else (label, current))).
  { unfold finalResult. rewrite remoteFallback_run. fold averaged. rewrite Er.
    reflexivity. }
  split; [|split].
  - rewrite Calls. destruct (String.eqb label "neutral") eqn:E.
    + apply String.eqb_eq in E. tauto.
    + apply String.eqb_neq in E. split; [discriminate | tauto].
  - intros Hn. apply String.eqb_neq in Hn. rewrite Calls, Hn. split; [reflexivity|].
    apply Pub. now rewrite Res, Hn.
  - intros Hn.
    assert (En : String.eqb label "neutral" = true) by now apply String.eqb_eq.
    rewrite En in Res.
    assert (Data : forall data,
               classify env = Responded true (Returns data) ->
               let returned := Number (nullish (data_confidence data) (VNumber 0)) in
               (truthy (data_emotion data) = true -> (0.2 <=? returned) = true ->
                  final_is (String_ (data_emotion data),
                            Math_max current (clamp returned 0 1)))
               /\ (truthy (data_emotion data) = false \/ (0.2 <=? returned) = false ->
                     final_is ("neutral", current))).
    { intros data Hc returned. rewrite Hc in Res. cbv zeta in Res. fold returned in Res.
      split.
      - intros Te Lo. destruct (clamp_unit_high returned Lo) as [Ec Hi].
        apply Pub. now rewrite Res, Ec, Te, Hi.
      - intros [Te|Lo]; apply Pub; rewrite Res.
        + rewrite Te. cbn [andb]. now rewrite Hn.
        + rewrite (clamp_unit_low returned Lo), andb_false_r. now rewrite Hn. }
    split; [exact Data|]. split; [|split].
    + intros e c Hc He Lo. apply String.eqb_neq in He.
      refine (proj1 (Data _ Hc) _ Lo). cbn [data_emotion truthy]. now rewrite He.
    + intros e absent Hc Ha. apply (proj2 (Data _ Hc)). right.
      cbn [data_confidence]. destruct Ha; subst absent; reflexivity.
    + intros Hno. apply Pub. rewrite Res, Hn.
      destruct (classify env) as [m|[|] [data|m]]; try reflexivity.
      now elim (Hno data).
Qed.

Lemma remote_fallback_escalation_witness :
  snd (@finalResult exampleHost Examples.remoteSad Examples.photo [])
  = Returns ("sad", Math_max 0 (clamp 0.8 0 1))
  /\ detections (@captureAndDetect exampleHost Examples.remoteSad)
     = {| emotion := "neutral"; imageSrc := Examples.photo; confidence := 0.01 |}
         :: detections (trace (arbiter "neutral" 0.01 Examples.photo
                                 ("sad", Math_max 0 (clamp 0.8 0 1)))).
Proof.
  refine (proj1 (proj2 (proj2 (proj2
            (remote_fallback_escalation exampleHost Examples.remoteSad
               Examples.photo [] [] eq_refl eq_refl _ eq_refl eq_refl))
            eq_refl))
            "sad" 0.8 eq_refl _ eq_refl).
  - discriminate.
  - discriminate.
Defined.
End RemoteFallback.

(** ** [POST /api/classify] *)

Section ClassifyRoute.
Import JS OpenAIClassify Spec.
Context {host : Host}.

Lemma includes_In xs s : includes xs s = true -> In s xs.
Proof.
  unfold includes. intros H. apply existsb_exists in H.
  destruct H as (x & Hin & E). apply String.eqb_eq in E. now subst x.
Qed.

(** The sanitized emotion is one of the seven labels. *)
Lemma sanitizeEmotion_allowed parsed : In (sanitizeEmotion parsed) allowed.
Proof.
  unfold sanitizeEmotion.
  destruct (includes allowed _) eqn:E.
  - now apply includes_In.
  - cbn. tauto.
Qed.

(** It is the lower-cased emotion when that is a label, and "neutral"
    when it is not, or when the emotion is absent or empty. *)
Lemma sanitizeEmotion_lowercase e c :
  let lowered := toLowerCase e in
  (In lowered allowed ->
     sanitizeEmotion {| emotion := VString e; confidence := c |} = lowered)
  /\ (~ In lowered allowed ->
        sanitizeEmotion {| emotion := VString e; confidence := c |} = "neutral").
Proof.
  intros lowered. unfold sanitizeEmotion, or_else.
  cbn [emotion truthy]. destruct (String.eqb e "") eqn:Ee.
  - apply String.eqb_eq in Ee. subst e lowered. cbn. split; [|reflexivity].
    intros H. repeat (destruct H as [H|H]; [discriminate H|]). destruct H.
  - cbn [negb String_]. fold lowered.
    destruct (includes allowed lowered) eqn:E.
    + split; [reflexivity|]. intros N. elim N. now apply includes_In.
    + split; [|reflexivity]. intros Hin.
      assert (T : includes allowed lowered = true).
      { unfold includes. apply existsb_exists. exists lowered.
        split; [assumption | apply String.eqb_refl]. }
      congruence.
Qed.

Lemma truthy_number_not_nan n : truthy_number n = true -> is_nan n = false.
Proof.
  unfold truthy_number. intros H. apply negb_true_iff in H.
  now apply orb_false_iff in H.
Qed.

(** The sanitized confidence lies in [[0, 1]]. *)
Lemma sanitizeConfidence_within parsed : within (sanitizeConfidence parsed) 0 1.
Proof.
  unfold sanitizeConfidence.
  set (n := Number (confidence parsed)).
  assert (N : is_nan (if truthy_number n then n else 0.5) = false).
  { destruct (truthy_number n) eqn:T; [now apply truthy_number_not_nan | reflexivity]. }
  rewrite clamp_correct by (assumption || reflexivity).
  now apply clamp_within.
Qed.

(** It is the clamp of a numeric confidence other than [0] and NaN, and
    [0.5] for [0], for NaN and for what [Number] does not read. *)
Lemma sanitizeConfidence_cases e (c : number) :
  (truthy_number c = true ->
     sanitizeConfidence {| emotion := e; confidence := VNumber c |} = clamp c 0 1)
  /\ (truthy_number c = false ->
        sanitizeConfidence {| emotion := e; confidence := VNumber c |} = 0.5).
Proof.
  unfold sanitizeConfidence. cbn [confidence Number]. split; intros T; rewrite T.
  - apply clamp_correct; try reflexivity. now apply truthy_number_not_nan.
  - reflexivity.
Qed.

(** Every answer built from an upstream response is a [200] within the
    contract. *)
Lemma answer_ok parse :
  status (answer parse) = 200%nat
  /\ exists e c note,
       json (answer parse) = Classified e c note
       /\ In e allowed /\ within c 0 1.
Proof.
  destruct parse as [found|m]; cbn [answer status json fallback].
  - split; [reflexivity|]. eexists _, _, _. split; [reflexivity|].
    split; [apply sanitizeEmotion_allowed | apply sanitizeConfidence_within].
  - split; [reflexivity|]. eexists _, _, _. split; [reflexivity|].
    split; [cbn; tauto | split; reflexivity].
Qed.
End ClassifyRoute.

Section ClassifyResponses.
Import JS OpenAIClassify Spec.

(** C3: the image is there, the credential is configured, the vision call
    fails (a timeout), and the route answers [500] (line 68), not the [200]
    with a safe fallback body of the claim.  The handler's own outer
    [catch] (lines 145-149), whose comment reads "if OpenAI is unavailable
    or quota limited, return a safe neutral fallback", does answer [200]
    with that body when the failure comes after the response was obtained;
    the inner [catch] (lines 41-69) returns before it is reached. *)
Theorem classify_upstream_failure_500 :
  (exists b, body ClassifyExamples.visionDown = Some b /\ truthy (image b) = true)
  /\ no_key (OPENAI_API_KEY ClassifyExamples.visionDown) = false
  /\ (exists m, vision ClassifyExamples.visionDown = Fails m)
  /\ @handleOpenAIClassify exampleHost ClassifyExamples.visionDown
     = {| status := 500;
          json := Error "Failed to classify image (vision model failed)" |}
  /\ @handleOpenAIClassify exampleHost
       (ClassifyExamples.imageOnly (Responds (Throws "TypeError")) (Fails ""))
     = {| status := 200;
          json := Classified "neutral" 0.5 (Some "openai_error") |}.
Proof.
  split; [eexists; split; reflexivity|].
  split; [reflexivity|]. split; [eexists; reflexivity|].
  split; reflexivity.
Qed.

(** The statuses of the route as the code has them.  For a request with a
    body: [400] exactly when the image is missing; with an image, [500] when the credential is
    missing.  With image and credential, the answer is a [200] within the
    contract whenever an upstream response was obtained, from the vision
    call or, that one failing and expressions being supplied, from the
    text-only call: the sanitized result, [neutral, 0.5] when the output
    holds no object, the fallback body when processing it throws.  It is a
    [500] when the vision call fails and no expressions were supplied or
    the text-only call fails as well. *)
Lemma classify_status (host : Host) (env : Env) (b : Body) :
  body env = Some b ->
  let response := handleOpenAIClassify env in
  let upstream :=
    match vision env with
    | Responds parse => Some parse
    | Fails _ =>
        if truthy (expressions b)
        then match text env with
             | Responds parse => Some parse
             | Fails _ => None
             end
        else None
    end in
  (status response = 400%nat <-> truthy (image b) = false)
  /\ (truthy (image b) = false ->
        response = {| status := 400; json := Error "Missing image in request body" |})
  /\ (truthy (image b) = true -> no_key (OPENAI_API_KEY env) = true ->
        response = {| status := 500; json := Error "OpenAI API key not configured" |})
  /\ (truthy (image b) = true -> no_key (OPENAI_API_KEY env) = false ->
        (upstream = None ->
           status response = 500%nat /\ exists message, json response = Error message)
        /\ (forall parse, upstream = Some parse ->
              response = answer parse
              /\ status response = 200%nat
              /\ (exists e c note,
                    json response = Classified e c note
                    /\ In e allowed /\ within c 0 1)
              /\ (parse = Returns None ->
                    json response = Classified "neutral" 0.5 None)
              /\ (forall m, parse = Throws m ->
                    json response = Classified "neutral" 0.5 (Some "openai_error")))).
Proof.
  intros Hb response upstream. subst response upstream.
  unfold handleOpenAIClassify. rewrite Hb.
  destruct (truthy (image b)) eqn:Hi; cbn [negb].
  - split; [|split; [discriminate|]].
    { destruct (no_key (OPENAI_API_KEY env)); [cbn; split; discriminate|].
      destruct (vision env) as [m|p];
        [destruct (truthy (expressions b)); [destruct (text env) as [m'|p]|]|];
        try (cbn; split; discriminate);
        rewrite (proj1 (answer_ok p)); split; discriminate. }
    split; [intros _ ->; reflexivity|].
    intros _ ->.
    assert (Ok : forall p,
               answer p = answer p
               /\ status (answer p) = 200%nat
               /\ (exists e c note,
                      json (answer p) = Classified e c note
                      /\ In e allowed /\ within c 0 1)
               /\ (p = Returns None -> json (answer p) = Classified "neutral" 0.5 None)
               /\ (forall m, p = Throws m ->
                      json (answer p) = Classified "neutral" 0.5 (Some "openai_error"))).
    { intros p. split; [reflexivity|]. split; [apply answer_ok|].
      split; [apply answer_ok|]. split.
      - intros ->. reflexivity.
      - intros m ->. reflexivity. }
    destruct (vision env) as [m|p].
    + destruct (truthy (expressions b)).
      * destruct (text env) as [m'|p].
        -- split; [intros _; split; [reflexivity | eexists; reflexivity]|].
           intros parse [=].
        -- split; [intros [=]|]. intros parse [= <-]. apply Ok.
      * split; [intros _; split; [reflexivity | eexists; reflexivity]|].
        intros parse [=].
    + split; [intros [=]|]. intros parse [= <-]. apply Ok.
  - split; [split; reflexivity|]. split; [reflexivity|].
    split; intros [=].
Qed.

Lemma classify_status_overConfident :
  status (@handleOpenAIClassify exampleHost ClassifyExamples.overConfident) = 200%nat
  /\ json (@handleOpenAIClassify exampleHost ClassifyExamples.overConfident)
     = Classified "happy" 1 None.
Proof.
  pose proof (classify_status exampleHost ClassifyExamples.overConfident
                {| image := VString Examples.photo; expressions := VUndefined |}
                eq_refl) as H.
  cbv zeta in H.
  destruct H as (_ & _ & _ & H).
  destruct (H eq_refl eq_refl) as [_ Hup].
  destruct (Hup _ eq_refl) as (E & S & _).
  split; [exact S|]. rewrite E. reflexivity.
Defined.

(** C4, on the class of inputs where the code departs from it: the
    model's answer [{"emotion":"happy","confidence":0}] has a numeric
    confidence, its clamp to [[0, 1]] is [0], and the route answers with a
    confidence of [0.5]. *)
Theorem zero_confidence_becomes_default (host : Host) :
  handleOpenAIClassify ClassifyExamples.zeroConfidence
  = {| status := 200; json := Classified "happy" 0.5 None |}
  /\ clamp 0 0 1 = 0
  /\ (0.5 =? clamp 0 0 1) = false.
Proof. repeat split. Qed.

(** The sanitization that does hold for every parsed object: the emotion
    sent is one of the seven labels (the lower-cased emotion, or "neutral"
    when that is no label or the emotion is absent), the confidence sent
    lies in [[0, 1]], and it is the clamp of every numeric confidence
    except [0] (and NaN). *)
Lemma sanitization_invariant (host : Host) (parsed : Parsed) :
  In (sanitizeEmotion parsed) allowed
  /\ within (sanitizeConfidence parsed) 0 1
  /\ (forall e, emotion parsed = VString e ->
        (In (toLowerCase e) allowed -> sanitizeEmotion parsed = toLowerCase e)
        /\ (~ In (toLowerCase e) allowed -> sanitizeEmotion parsed = "neutral"))
  /\ (truthy (emotion parsed) = false -> sanitizeEmotion parsed = "neutral")
  /\ (forall c, confidence parsed = VNumber c -> truthy_number c = true ->
        sanitizeConfidence parsed = clamp c 0 1).
Proof.
  split; [apply sanitizeEmotion_allowed|].
  split; [apply sanitizeConfidence_within|].
  destruct parsed as [e' c']. cbn [emotion confidence]. repeat split.
  - subst e'. now apply sanitizeEmotion_lowercase.
  - subst e'. now apply sanitizeEmotion_lowercase.
  - intros F. unfold sanitizeEmotion, or_else. cbn [emotion]. now rewrite F.
  - intros c -> T. now apply sanitizeConfidence_cases.
Qed.
End ClassifyResponses.

(** ** The suggestion for "angry" *)

Section Suggestions.
Import JS Eff EmotionResult Spec.

(** C9, as the specification states it, fails: when the request for the
    quote fails, what is displayed is the error text, and not the fallback
    string. *)
Lemma quote_failure_shows_error :
  requests (@run exampleHost SuggestionExamples.quoteDown "angry") = ["/api/quote"]
  /\ render (@after exampleHost initial SuggestionExamples.quoteDown "angry")
     = Failure "Failed to fetch suggestion. Please try again."
  /\ render (@after exampleHost initial SuggestionExamples.quoteDown "angry")
     <> Suggestion (VString "Breathe. Reset. Refocus.").
Proof. repeat split. discriminate. Qed.

(** C9, as the code has it.  For "angry", one request is made, to the
    quote route.  When it succeeds, the suggestion displayed is the quote,
    or the fallback string "Breathe. Reset. Refocus." when the body holds
    no quote.  When it fails (no response, a response that is not [ok], an
    unreadable body), no suggestion is set and the error text is displayed. *)
Theorem angry_suggestion (host : Host) (env : Env) (st : State) :
  requests (run env "angry") = ["/api/quote"]
  /\ (forall q, quote env = Responded true (Returns q) -> truthy q = true ->
        render (after st env "angry") = Suggestion q)
  /\ (forall q, quote env = Responded true (Returns q) -> truthy q = false ->
        render (after st env "angry")
        = Suggestion (VString "Breathe. Reset. Refocus."))
  /\ ((forall q, quote env <> Responded true (Returns q)) ->
        render (after st env "angry")
        = Failure "Failed to fetch suggestion. Please try again."
        /\ message (after st env "angry") = message st).
Proof.
  unfold after, run, suggestion, fetch.
  cbn [String.eqb Ascii.eqb Bool.eqb].
  destruct (onSuggestionReady env); destruct (quote env) as [m|[|] [q|m]];
    (split; [reflexivity|]); (split; [|split]);
    try (intros q' [=]; fail);
    try (intros _; split; reflexivity).
  all: try (intros q' [= <-] T;
            cbv [trace bind emit ret try_catch finally await throw fst snd negb
                 or_else];
            rewrite T; reflexivity).
  all: intros N; now elim (N q).
Qed.

Lemma angry_suggestion_witness :
  render (@after exampleHost initial SuggestionExamples.quoteUp "angry")
  = Suggestion (VString "Patience is bitter, but its fruit is sweet. — Aristotle").
Proof.
  refine (proj1 (proj2 (angry_suggestion exampleHost SuggestionExamples.quoteUp initial))
            _ eq_refl eq_refl).
Defined.
End Suggestions.

(** ** The deep estimator: sampling, averaging, threshold *)

Section Averaging.
Import JS Eff CameraCapture Spec.

Lemma get_set_same k v o : get k (set k v o) = Some v.
Proof.
  induction o as [|[k' v'] o IH]; cbn.
  - now rewrite String.eqb_refl.
  - destruct (String.eqb k k') eqn:E; cbn; rewrite ?String.eqb_refl, ?E; auto.
Qed.

Lemma get_set_other k k' v o : k <> k' -> get k (set k' v o) = get k o.
Proof.
  intros N. induction o as [|[k1 v1] o IH]; cbn.
  - apply String.eqb_neq in N. now rewrite N.
  - destruct (String.eqb k' k1) eqn:E; cbn.
    + apply String.eqb_eq in E. subst k1.
      apply String.eqb_neq in N. now rewrite N.
    + now rewrite IH.
Qed.

Lemma get_accumulate k accum entry :
  get k (accumulate accum entry)
  = fold_left (fun g v => Some (or0 g + v)) (contributions k [entry]) (get k accum).
Proof.
  destruct entry as [k' v]. cbn [accumulate contributions flat_map fst snd app].
  destruct (String.eqb k' k) eqn:E.
  - apply String.eqb_eq in E. subst k'. rewrite get_set_same. reflexivity.
  - apply String.eqb_neq in E. rewrite get_set_other by congruence. reflexivity.
Qed.

Lemma contributions_cons k entry es :
  contributions k (entry :: es) = (contributions k [entry] ++ contributions k es)%list.
Proof. unfold contributions. cbn [flat_map]. now rewrite app_nil_r. Qed.

Lemma get_accumulate_all k es : forall accum,
  get k (fold_left accumulate es accum)
  = fold_left (fun g v => Some (or0 g + v)) (contributions k es) (get k accum).
Proof.
  induction es as [|entry es IH]; intros accum; [reflexivity|].
  cbn [fold_left]. rewrite IH, get_accumulate, (contributions_cons k entry es).
  now rewrite fold_left_app.
Qed.

Lemma get_sample env img k i accum t accum' :
  img <> "" ->
  sample env img accum i = (t, Returns accum') ->
  get k accum'
  = fold_left (fun g v => Some (or0 g + v))
      (match sampled env i with Some es => contributions k es | None => [] end)
      (get k accum).
Proof.
  intros Hne. unfold sample, sampled.
  destruct i as [|i]; cbn [Nat.eqb orb].
  - cbn [no_image]. apply String.eqb_neq in Hne. rewrite Hne.
    destruct (detect (frame env 0)) as [[es|]|m]; cbn; intros [= _ <-];
      [apply get_accumulate_all | reflexivity].
  - destruct (no_image (shot (frame env (S i)))); cbn.
    + intros [= _ <-]. reflexivity.
    + destruct (detect (frame env (S i))) as [[es|]|m]; cbn; intros [= _ <-];
        [apply get_accumulate_all | reflexivity].
Qed.

Lemma get_sampleFrames env img k :
  img <> "" ->
  forall indices accum t accum',
    sampleFrames env img accum indices = (t, Returns accum') ->
    get k accum'
    = fold_left (fun g v => Some (or0 g + v))
        (flat_map (fun i => match sampled env i with
                            | Some es => contributions k es
                            | None => []
                            end) indices)
        (get k accum).
Proof.
  intros Hne. induction indices as [|i rest IH]; intros accum t accum'.
  - cbn. now intros [= _ <-].
  - cbn [sampleFrames flat_map]. unfold bind.
    destruct (sample env img accum i) as [t1 [a|m]] eqn:Es; [|discriminate].
    destruct (sampleFrames env img a rest) as [t2 r] eqn:Er.
    intros [= _ ->]. rewrite fold_left_app.
    rewrite (IH _ _ _ Er). now rewrite (get_sample env img k i accum t1 a Hne Es).
Qed.

(** A zero that is not [-0] is [0]. *)
Lemma zero_not_neg a : (a =? 0) = true -> is_neg_zero a = false -> a = 0.
Proof.
  intros Hz Hn.
  assert (K : FloatOrder.fkey a = Some (0, 0, 0)%Z).
  { rewrite eqb_key in Hz.
    change (FloatOrder.fkey 0) with (Some (0, 0, 0)%Z) in Hz.
    destruct (FloatOrder.fkey a) as [[[a1 a2] a3]|]; [|discriminate].
    cbn [FloatOrder.key_compare FloatOrder.lex3_compare] in Hz.
    destruct (Z.compare_spec a1 0), (Z.compare_spec a2 0), (Z.compare_spec a3 0);
      try discriminate. now subst. }
  unfold FloatOrder.fkey in K.
  rewrite <- (SF2Prim_Prim2SF a) in Hn |- *.
  destruct (Prim2SF a) as [[|]| [|] | |[|] m e]; try discriminate K.
  - vm_compute in Hn. discriminate Hn.
  - reflexivity.
Qed.

Lemma plain_or0 a : plain a = true -> or0 (Some a) = a.
Proof.
  unfold plain, or0, truthy_number. intros H.
  apply andb_true_iff in H. destruct H as [Hn Hz].
  apply negb_true_iff in Hn, Hz. rewrite Hn, orb_false_r.
  destruct (a =? 0) eqn:E; [|reflexivity].
  cbn [negb]. symmetry. now apply zero_not_neg.
Qed.

Lemma running_fold scores : forall a,
  plain a = true ->
  forallb plain (running a scores) = true ->
  fold_left (fun g v => Some (or0 g + v)) scores (Some a)
  = Some (fold_left PrimFloat.add scores a).
Proof.
  induction scores as [|v rest IH]; intros a Pa Pr; [reflexivity|].
  cbn [fold_left running forallb] in *. apply andb_true_iff in Pr.
  destruct Pr as [P1 P2]. rewrite (plain_or0 a Pa). now apply IH.
Qed.

(** The accumulated score of a label is the sum of its scores. *)
Lemma accumulated_sum scores :
  forallb plain (running 0 scores) = true ->
  fold_left (fun g v => Some (or0 g + v)) scores None
  = match scores with [] => None | _ => Some (sum scores) end.
Proof.
  destruct scores as [|v rest]; [reflexivity|].
  cbn [fold_left running forallb or0]. intros Pr.
  apply andb_true_iff in Pr. destruct Pr as [P1 P2].
  unfold sum. cbn [fold_left]. now apply running_fold.
Qed.
End Averaging.

(** ** Sums of non-negative numbers

    Adding a number that is [0] or above to one that is [+0] or above gives
    a number that is [+0] or above: neither NaN nor [-0]. *)

Section NonNegativeSums.
Import JS CameraCapture Spec FloatOrder.

Lemma shr_1_nonneg mrs : (0 <= shr_m mrs)%Z -> (0 <= shr_m (shr_1 mrs))%Z.
Proof.
  destruct mrs as [m r s]. cbn [shr_m]. intros H.
  destruct m as [|[p|p|]|p]; cbn; lia.
Qed.

Lemma iter_shr_1_nonneg p : forall mrs,
  (0 <= shr_m mrs)%Z -> (0 <= shr_m (SpecFloat.iter_pos shr_1 p mrs))%Z.
Proof.
  induction p as [p IH|p IH|]; intros mrs H; cbn [SpecFloat.iter_pos].
  - apply IH, IH. now apply shr_1_nonneg.
  - now apply IH, IH.
  - now apply shr_1_nonneg.
Qed.

Lemma shr_fexp_nonneg prec emax m e l :
  (0 <= m)%Z -> (0 <= shr_m (fst (shr_fexp prec emax m e l)))%Z.
Proof.
  intros H. unfold shr_fexp, shr.
  assert (H0 : (0 <= shr_m (shr_record_of_loc m l))%Z)
    by (destruct l as [|[]]; exact H).
  destruct (_ - e)%Z; cbn [fst]; auto using iter_shr_1_nonneg.
Qed.

Lemma round_nearest_even_nonneg m l :
  (0 <= m)%Z -> (0 <= round_nearest_even m l)%Z.
Proof.
  intros H. destruct l as [|[]]; cbn; try lia. destruct (Z.even m); lia.
Qed.

Lemma binary_round_aux_nonneg prec emax m e l :
  (0 <= m)%Z -> nonneg_sf (binary_round_aux prec emax false m e l) = true.
Proof.
  intros H. unfold binary_round_aux.
  pose proof (shr_fexp_nonneg prec emax m e l H) as H1.
  destruct (shr_fexp prec emax m e l) as [mrs' e']. cbn [fst] in H1.
  pose proof (shr_fexp_nonneg prec emax _ e' loc_Exact
                (round_nearest_even_nonneg _ (loc_of_shr_record mrs') H1)) as H2.
  destruct (shr_fexp prec emax _ e' loc_Exact) as [mrs'' e'']. cbn [fst] in H2.
  destruct (shr_m mrs'') as [|p|p]; [reflexivity| |lia].
  destruct (e'' <=? emax - prec)%Z; reflexivity.
Qed.

Lemma SFadd_nonneg prec emax x y :
  nonneg_sf x = true -> nonneg_sf y = true \/ y = S754_zero true ->
  nonneg_sf (SFadd prec emax x y) = true.
Proof.
  intros Hx [Hy | ->].
  - destruct x as [[|]|[|]| |[|] mx ex]; try discriminate;
    destruct y as [[|]|[|]| |[|] my ey]; try discriminate; try reflexivity.
    cbn [SFadd cond_Zopp]. unfold binary_normalize.
    destruct (Z.pos _ + Z.pos _)%Z as [|p|p] eqn:E; [reflexivity| |lia].
    clear E. unfold binary_round.
    destruct (shl_align p _ _) as [mz ez].
    apply binary_round_aux_nonneg. lia.
  - destruct x as [[|]|[|]| |[|] mx ex]; try discriminate; reflexivity.
Qed.

Lemma add_nonneg a v : nonneg a = true -> (0 <=? v) = true -> nonneg (a + v) = true.
Proof.
  unfold nonneg. intros Ha Hv. rewrite add_spec. apply SFadd_nonneg; [assumption|].
  rewrite FloatAxioms.leb_spec in Hv.
  change (Prim2SF 0) with (S754_zero false) in Hv.
  destruct (Prim2SF v) as [[|]|[|]| |[|] mv ev]; try discriminate Hv; auto.
Qed.

Lemma nonneg_plain a : nonneg a = true -> plain a = true.
Proof.
  unfold nonneg, plain. intros H.
  rewrite is_nan_key. unfold FloatOrder.fkey, is_neg_zero.
  rewrite classify_spec. unfold SF64classify, SFclassify.
  destruct (Prim2SF a) as [[|]|[|]| |[|] m e]; try discriminate H; try reflexivity.
  match goal with |- context [if ?c then PNormal else PSubn] => destruct c end;
    reflexivity.
Qed.

Lemma running_plain scores : forall a,
  nonneg a = true ->
  (forall v, In v scores -> (0 <=? v) = true) ->
  forallb plain (running a scores) = true.
Proof.
  induction scores as [|v rest IH]; intros a Ha Hs; [reflexivity|].
  cbn [running forallb].
  assert (Hav : nonneg (a + v) = true)
    by (apply add_nonneg; [assumption | apply Hs; now left]).
  rewrite (nonneg_plain _ Hav). cbn [andb].
  apply IH; [assumption|]. intros w Hw. apply Hs. now right.
Qed.
End NonNegativeSums.

Section DeepEstimator.
Import JS Eff CameraCapture Spec.

Lemma keys_set k v o k' : In k' (keys (set k v o)) <-> k' = k \/ In k' (keys o).
Proof.
  induction o as [|[k1 v1] o IH]; cbn.
  - split; [intros [H|[]]; auto | intros [H|[]]; auto].
  - destruct (String.eqb k k1) eqn:E; cbn.
    + apply String.eqb_eq in E. subst k1. intuition.
    + rewrite IH. intuition.
Qed.

Lemma NoDup_set k v o : NoDup (keys o) -> NoDup (keys (set k v o)).
Proof.
  induction o as [|[k1 v1] o IH]; cbn; intros N.
  - constructor; [intros [] | constructor].
  - inversion N as [|? ? Hn N']; subst.
    destruct (String.eqb k k1) eqn:E; cbn.
    + apply String.eqb_eq in E. subst k1. now constructor.
    + constructor; [|now apply IH].
      fold (keys (set k v o)). rewrite keys_set. intros [H|H]; [|contradiction].
      apply String.eqb_neq in E. congruence.
Qed.

Lemma NoDup_accumulate_all es : forall accum,
  NoDup (keys accum) -> NoDup (keys (fold_left accumulate es accum)).
Proof.
  induction es as [|[k v] es IH]; intros accum N; [assumption|].
  cbn [fold_left]. apply IH. unfold accumulate. now apply NoDup_set.
Qed.

Lemma NoDup_sampleFrames env img : forall indices accum t accum',
  NoDup (keys accum) ->
  sampleFrames env img accum indices = (t, Returns accum') ->
  NoDup (keys accum').
Proof.
  induction indices as [|i rest IH]; intros accum t accum' N.
  - cbn. now intros [= _ <-].
  - cbn [sampleFrames]. unfold bind.
    destruct (sample env img accum i) as [t1 [a|m]] eqn:Es; [|discriminate].
    destruct (sampleFrames env img a rest) as [t2 r] eqn:Er.
    intros [= _ ->]. apply (IH a t2 accum'); [|assumption].
    unfold sample, bind, ret, await in Es.
    destruct (no_image _); [injection Es as _ <-; assumption|].
    destruct (detect (frame env i)) as [[es|]|m]; try discriminate Es;
      injection Es as _ <-; [now apply NoDup_accumulate_all | assumption].
Qed.

Lemma get_absent k o : ~ In k (keys o) -> get k o = None.
Proof.
  induction o as [|[k1 v1] o IH]; cbn; intros N; [reflexivity|].
  destruct (String.eqb k k1) eqn:E.
  - apply String.eqb_eq in E. subst k1. elim N. now left.
  - apply IH. intros H. apply N. now right.
Qed.

(** Lines 159-162: every accumulated score is divided by the number of
    frames. *)
Lemma get_average n k accum :
  NoDup (keys accum) ->
  get k (average n accum)
  = option_map (fun v => v / Math_max 1 (number_of_nat n)) (get k accum).
Proof.
  unfold average. intros N.
  enough (G : forall averaged,
             get k (fold_left
                      (fun averaged '(k, v) =>
                         set k (v / Math_max 1 (number_of_nat n)) averaged)
                      accum averaged)
             = match get k accum with
               | Some v => Some (v / Math_max 1 (number_of_nat n))
               | None => get k averaged
               end).
  { rewrite G. destruct (get k accum); reflexivity. }
  induction accum as [|[k1 v1] accum IH]; intros averaged; [reflexivity|].
  inversion N as [|? ? Hn N']; subst.
  cbn [fold_left get]. rewrite (IH N').
  destruct (String.eqb k k1) eqn:E.
  - apply String.eqb_eq in E. subst k1.
    rewrite (get_absent k accum Hn). apply get_set_same.
  - apply String.eqb_neq in E. destruct (get k accum); [reflexivity|].
    now apply get_set_other.
Qed.

(** Lines 164-168: the label of the averaged vector is its top label when
    the top score is at least 0.35, and "neutral" below. *)
Lemma deepLabel_threshold averaged :
  let top := getTopEmotion (Some (as_expressions averaged)) in
  ((value top <? 0.35) = true -> fst (deepLabel averaged) = "neutral")
  /\ ((0.35 <=? value top) = true -> fst (deepLabel averaged) = key top)
  /\ snd (deepLabel averaged) = clamp (value top) 0 1.
Proof.
  intros top. unfold deepLabel. fold top. cbn [fst snd].
  pose proof (getTopEmotion_not_nan (Some (as_expressions averaged))) as Nv.
  fold top in Nv.
  rewrite clamp_correct by (assumption || reflexivity).
  unfold clamp. repeat split.
  - intros Lt.
    destruct (value top <=? 0); [reflexivity|].
    assert (L1 : (value top <? 1) = true)
      by (apply (ltb_trans _ 0.35); [assumption | reflexivity]).
    rewrite (ltb_not_leb _ _ L1). now rewrite (ltb_not_leb _ _ Lt).
  - intros Le.
    assert (P : (0 <? value top) = true)
      by (apply (ltb_leb_trans _ 0.35); [reflexivity | assumption]).
    rewrite (ltb_not_leb _ _ P).
    destruct (1 <=? value top); [reflexivity | now rewrite Le].
Qed.

(** C7, as the specification states it, fails in its example: the three
    "sad" scores 0.1, 0.2 and 0.3 average to 0.20000000000000004, the
    binary64 number next above 0.2, and not to 0.2. *)
Lemma average_of_tenths :
  exists t accum,
    sampleFrames Examples.tenths Examples.photo []
      (seq 0 (frames (fullModelsLoaded Examples.tenths))) = (t, Returns accum)
    /\ frameScores Examples.tenths "sad" 3 = [0.1; 0.2; 0.3]
    /\ get "sad" (average 3 accum) = Some 0.20000000000000004
    /\ (0.20000000000000004 =? 0.2) = false
    /\ get "sad" (average 3 accum) <> Some 0.2.
Proof.
  eexists _, _. split; [vm_compute; reflexivity|].
  split; [reflexivity|]. split; [reflexivity|]. split; [reflexivity|].
  intros E.
  apply (f_equal (fun g => match g with Some v => v =? 0.2 | None => false end)) in E.
  vm_compute in E. discriminate E.
Qed.

(** C7, as the code has it.  The background pass takes 3 frames when the
    full tier is loaded and 1 otherwise.  For every label, the averaged
    score is the sum of its per-frame scores (in binary64 arithmetic, from
    0, in frame order) divided by that number of frames, the scores being
    [0] or above; a label no frame scored has no averaged score.  The label of the averaged vector is "neutral" when its top
    score is below 0.35 and the top label otherwise.  The scores 0.1, 0.2
    and 0.3 average to [(0.1 + 0.2 + 0.3) / 3], which is
    0.20000000000000004, the number next above 0.2. *)
Theorem deep_estimator_averaging :
  (frames true = 3%nat /\ frames false = 1%nat)
  /\ (forall env img k t accum,
        img <> "" ->
        sampleFrames env img [] (seq 0 (frames (fullModelsLoaded env)))
        = (t, Returns accum) ->
        (forall v, In v (frameScores env k (frames (fullModelsLoaded env))) ->
                   (0 <=? v) = true) ->
        get k (average (frames (fullModelsLoaded env)) accum)
        = match frameScores env k (frames (fullModelsLoaded env)) with
          | [] => None
          | scores =>
              Some (sum scores / number_of_nat (frames (fullModelsLoaded env)))
          end)
  /\ (forall averaged,
        let top := getTopEmotion (Some (as_expressions averaged)) in
        ((value top <? 0.35) = true -> fst (deepLabel averaged) = "neutral")
        /\ ((0.35 <=? value top) = true -> fst (deepLabel averaged) = key top))
  /\ (sum [0.1; 0.2; 0.3] / number_of_nat 3 = 0.20000000000000004
      /\ next_up 0.2 = 0.20000000000000004).
Proof.
  split; [split; reflexivity|]. split; [|split; [|split; reflexivity]].
  - intros env img k t accum Hne Hs Hp.
    set (n := frames (fullModelsLoaded env)) in *.
    assert (N : NoDup (keys accum))
      by (apply (NoDup_sampleFrames env img (seq 0 n) [] t accum);
          [apply NoDup_nil | exact Hs]).
    rewrite (get_average n k accum N).
    rewrite (get_sampleFrames env img k Hne _ _ _ _ Hs).
    fold (frameScores env k n). cbn [get].
    rewrite (accumulated_sum _ (running_plain _ 0 eq_refl Hp)).
    assert (D : Math_max 1 (number_of_nat n) = number_of_nat n)
      by (subst n; destruct (fullModelsLoaded env); reflexivity).
    destruct (frameScores env k n); [reflexivity|].
    cbn [option_map]. now rewrite D.
  - intros averaged top.
    destruct (deepLabel_threshold averaged) as (A & B & _). now split.
Qed.

Lemma deep_estimator_averaging_witness :
  get "sad"
      (average (frames (fullModelsLoaded Examples.tenths))
               [("sad", 0.1 + 0.2 + 0.3)])
  = Some (sum [0.1; 0.2; 0.3] / number_of_nat 3).
Proof.
  refine (proj1 (proj2 deep_estimator_averaging)
            Examples.tenths Examples.photo "sad" [] [("sad", 0.1 + 0.2 + 0.3)]
            _ eq_refl _).
  - discriminate.
  - intros v [<-|[<-|[<-|[]]]]; reflexivity.
Defined.
End DeepEstimator.

(* ===================================================================== *)
(** * Part III: further properties of the code                            *)
(* ===================================================================== *)

(** ** Runs of [captureAndDetect] *)

Section Runs.
Import JS Eff CameraCapture Spec Observe.
Context {host : Host}.

Lemma classifyCalls_app t1 t2 :
  classifyCalls (t1 ++ t2) = (classifyCalls t1 ++ classifyCalls t2)%list.
Proof. apply flat_map_app. Qed.

Lemma errorsShown_app t1 t2 :
  errorsShown (t1 ++ t2) = (errorsShown t1 ++ errorsShown t2)%list.
Proof. apply flat_map_app. Qed.

(** The trace of the background analysis: outward events, of which at most
    one is a call of [onDetected] (with the captured image) and at most one
    a request, and then [setDetecting(false)]. *)
Lemma background_shape env img qe qc :
  exists mid,
    trace (background env img qe qc) = (mid ++ [SetDetecting false])%list
    /\ forallb outward mid = true
    /\ (List.length (detections mid) <= 1)%nat
    /\ (forall r, In r (detections mid) -> imageSrc r = img)
    /\ (List.length (classifyCalls mid) <= 1)%nat.
Proof.
  unfold background, finally, try_catch, bind.
  pose proof (sampleFrames_silent env img (seq 0 (frames (fullModelsLoaded env))) [])
    as St.
  destruct (sampleFrames env img [] _) as [t [accum|m]]; cbn [fst] in St; subst t.
  - unfold finalResult. rewrite remoteFallback_run.
    set (averaged := average _ accum).
    set (label := refine env (deepLabel averaged)).
    set (final' := if String.eqb (fst label) "neutral" then _ else label).
    unfold arbiter. destruct final' as [fe fc].
    destruct (String.eqb (fst label) "neutral");
      (destruct (negb (String.eqb fe "") && negb (String.eqb fe qe));
       [destruct (needsUpdate qc fc)|]);
      cbn [emit ret trace fst snd app];
      match goal with |- exists mid, ?l = _ /\ _ => exists (removelast l) end;
      (split; [reflexivity|]);
      cbn; repeat split; try lia;
      try (intros r [<-|[]]; reflexivity); try (intros r []).
  - exists []. cbn. repeat split; try lia; intros r [].
Qed.

(** When sampling the frames throws, the background analysis does nothing
    but release the busy flag. *)
Lemma background_failed env img qe qc t m :
  sampleFrames env img [] (seq 0 (frames (fullModelsLoaded env))) = (t, Throws m) ->
  trace (background env img qe qc) = [SetDetecting false].
Proof.
  intros Hs. unfold background, finally, try_catch, bind. rewrite Hs.
  pose proof (sampleFrames_silent env img (seq 0 (frames (fullModelsLoaded env))) [])
    as St. rewrite Hs in St. cbn [fst] in St. now subst t.
Qed.

Lemma outward_quiet mid :
  forallb outward mid = true ->
  errorsShown mid = [] /\ forall b, ~ In (SetDetecting b) mid.
Proof.
  induction mid as [|e mid IH]; cbn [forallb]; intros H.
  - split; [reflexivity | intros b []].
  - apply andb_true_iff in H. destruct H as [He Hm].
    destruct (IH Hm) as [E N]. split.
    + destruct e; try discriminate He; exact E.
    + intros b [Hb|Hb]; [subst e; discriminate He | exact (N b Hb)].
Qed.

Lemma image_captured src :
  no_image src = false -> exists img, src = Some img /\ img <> "".
Proof.
  destruct src as [img|]; cbn; [|discriminate].
  intros H. exists img. split; [reflexivity|]. now apply String.eqb_neq.
Qed.

(** A run that does not publish: the three ways of a capture to fail. *)
Lemma capture_fails env :
  webcam env = true ->
  (no_image (getScreenshot env) = true ->
     captureAndDetect env
     = [SetError None; SetDetecting true;
        SetError (Some "Unable to capture image"); SetDetecting false])
  /\ (no_image (getScreenshot env) = false -> imageLoad env = false ->
        captureAndDetect env
        = [SetError None; SetDetecting true;
           SetError (Some "Failed to load image"); SetDetecting false]).
Proof.
  intros Hw. unfold captureAndDetect. rewrite Hw. cbn [negb]. split.
  - intros ->. reflexivity.
  - intros Hi ->. rewrite Hi. reflexivity.
Qed.

End Runs.

Section RunProperties.
Import JS Eff CameraCapture Spec Observe.

(** X1: [onDetected] is never called exactly when the capture fails (no
    webcam, no screenshot, or a frame that does not decode); no request is
    sent to the classifier route then, and with a webcam the message shown
    is "Unable to capture image", or "Failed to load image". *)
Theorem published_iff_captured (host : Host) env :
  (detections (captureAndDetect env) = []
   <-> webcam env = false \/ no_image (getScreenshot env) = true
       \/ imageLoad env = false)
  /\ (detections (captureAndDetect env) = [] ->
        classifyCalls (captureAndDetect env) = [])
  /\ (webcam env = true -> no_image (getScreenshot env) = true ->
        errorsShown (captureAndDetect env) = ["Unable to capture image"])
  /\ (webcam env = true -> no_image (getScreenshot env) = false ->
        imageLoad env = false ->
        errorsShown (captureAndDetect env) = ["Failed to load image"]).
Proof.
  assert (Fail : webcam env = false \/ no_image (getScreenshot env) = true
                 \/ imageLoad env = false ->
                 detections (captureAndDetect env) = []
                 /\ classifyCalls (captureAndDetect env) = []).
  { intros [Hw | Hrest].
    - unfold captureAndDetect. rewrite Hw. split; reflexivity.
    - destruct (webcam env) eqn:Hw;
        [|unfold captureAndDetect; rewrite Hw; split; reflexivity].
      destruct (capture_fails env Hw) as [F1 F2].
      destruct (no_image (getScreenshot env)) eqn:Hi.
      + rewrite (F1 eq_refl). split; reflexivity.
      + destruct Hrest as [Hn | Hl]; [discriminate Hn|].
        rewrite (F2 eq_refl Hl). split; reflexivity. }
  assert (Back : detections (captureAndDetect env) = [] ->
                 webcam env = false \/ no_image (getScreenshot env) = true
                 \/ imageLoad env = false).
  { intros Hd.
    destruct (webcam env) eqn:Hw; [|now left].
    destruct (no_image (getScreenshot env)) eqn:Hi; [now right; left|].
    destruct (imageLoad env) eqn:Hl; [|now right; right].
    destruct (image_captured _ Hi) as (img & Hs & Hne).
    rewrite (provisional_result env img Hw Hs Hne Hl) in Hd. discriminate Hd. }
  split; [split; [exact Back | intros H; apply Fail, H]|].
  split; [intros Hd; apply Fail, Back, Hd|].
  split.
  - intros Hw Hi. now rewrite (proj1 (capture_fails env Hw) Hi).
  - intros Hw Hi Hl. now rewrite (proj2 (capture_fails env Hw) Hi Hl).
Qed.

Lemma published_iff_captured_witness :
  errorsShown (@captureAndDetect exampleHost Scenarios.noScreenshot)
  = ["Unable to capture image"].
Proof.
  exact (proj1 (proj2 (proj2 (published_iff_captured exampleHost
                                Scenarios.noScreenshot)))
               eq_refl eq_refl).
Defined.

(** X2: the busy flag.  Every run with a webcam starts with
    [setError(null); setDetecting(true)] and ends with
    [setDetecting(false)], whatever fails in between, and touches the flag
    nowhere else: the capture button comes back. *)
Theorem detecting_released (host : Host) env :
  webcam env = true ->
  exists mid,
    captureAndDetect env
    = ([SetError None; SetDetecting true] ++ mid ++ [SetDetecting false])%list
    /\ forall b, ~ In (SetDetecting b) mid.
Proof.
  intros Hw. destruct (capture_fails env Hw) as [F1 F2].
  destruct (no_image (getScreenshot env)) eqn:Hi.
  { rewrite (F1 eq_refl). exists [SetError (Some "Unable to capture image")].
    split; [reflexivity|]. intros b [H|[]]. discriminate H. }
  destruct (imageLoad env) eqn:Hl.
  2:{ rewrite (F2 eq_refl eq_refl). exists [SetError (Some "Failed to load image")].
      split; [reflexivity|]. intros b [H|[]]. discriminate H. }
  destruct (image_captured _ Hi) as (img & Hs & Hne).
  rewrite (captureAndDetect_captured env img Hw Hs Hne Hl). cbv zeta.
  destruct (background_shape env img (fst (quick (quickDetection env)))
              (snd (quick (quickDetection env))))
    as (mid & E & Q & _).
  rewrite E. eexists (OnDetected _ :: mid). split; [reflexivity|].
  intros b [H|H]; [discriminate H|].
  exact (proj2 (outward_quiet mid Q) b H).
Qed.

Lemma detecting_released_witness :
  exists mid,
    @captureAndDetect exampleHost Examples.frowning
    = ([SetError None; SetDetecting true] ++ mid ++ [SetDetecting false])%list
    /\ forall b, ~ In (SetDetecting b) mid.
Proof. exact (detecting_released exampleHost Examples.frowning eq_refl). Defined.

(** X3: a run calls [onDetected] at most twice and sends at most one
    request to the classifier route; every result published carries the
    frame that was captured at the start. *)
Theorem at_most_one_update (host : Host) env :
  (List.length (detections (captureAndDetect env)) <= 2)%nat
  /\ (List.length (classifyCalls (captureAndDetect env)) <= 1)%nat
  /\ (forall r, In r (detections (captureAndDetect env)) ->
                getScreenshot env = Some (imageSrc r)).
Proof.
  destruct (webcam env) eqn:Hw.
  2:{ unfold captureAndDetect. rewrite Hw. cbn. repeat split; try lia; try (intros r []). }
  destruct (capture_fails env Hw) as [F1 F2].
  destruct (no_image (getScreenshot env)) eqn:Hi.
  { rewrite (F1 eq_refl). cbn. repeat split; try lia; try (intros r []). }
  destruct (imageLoad env) eqn:Hl.
  2:{ rewrite (F2 eq_refl eq_refl). cbn. repeat split; try lia; try (intros r []). }
  destruct (image_captured _ Hi) as (img & Hs & Hne).
  rewrite (captureAndDetect_captured env img Hw Hs Hne Hl). cbv zeta.
  destruct (background_shape env img (fst (quick (quickDetection env)))
              (snd (quick (quickDetection env))))
    as (mid & E & Q & D1 & Di & C1).
  rewrite E. rewrite !detections_app, !classifyCalls_app. cbn.
  rewrite !app_nil_r. repeat split; try lia.
  intros r [<-|H]; [exact Hs|]. now rewrite (Di r H).
Qed.

Lemma at_most_one_update_witness :
  getScreenshot Examples.noFace = Some Examples.photo.
Proof.
  apply (proj2 (proj2 (at_most_one_update exampleHost Examples.noFace))
           {| emotion := "neutral"; imageSrc := Examples.photo; confidence := 0.01 |}).
  left. reflexivity.
Defined.

(** X5: in a run whose capture succeeds no error message is ever shown,
    whatever the detectors, the landmark model and the classifier route
    do; and when the detector throws on a frame that is read, the
    provisional result stands and no request is sent. *)
Theorem background_failures_are_silent (host : Host) env img :
  webcam env = true -> getScreenshot env = Some img -> img <> "" ->
  imageLoad env = true ->
  errorsShown (captureAndDetect env) = []
  /\ (forall i m,
        (i < frames (fullModelsLoaded env))%nat ->
        readFrame env i = true ->
        detect (frame env i) = Throws m ->
        detections (captureAndDetect env)
        = [{| emotion := fst (quick (quickDetection env));
              imageSrc := img;
              confidence := snd (quick (quickDetection env)) |}]
        /\ classifyCalls (captureAndDetect env) = []).
Proof.
  intros Hw Hs Hne Hl.
  rewrite (captureAndDetect_captured env img Hw Hs Hne Hl). cbv zeta. split.
  - destruct (background_shape env img (fst (quick (quickDetection env)))
                (snd (quick (quickDetection env))))
      as (mid & E & Q & _).
    rewrite E, !errorsShown_app. cbn.
    now rewrite (proj1 (outward_quiet mid Q)).
  - intros i m Hi Hr Hd.
    assert (T : exists m', sampleFrames env img []
                             (seq 0 (frames (fullModelsLoaded env))) = ([], Throws m')).
    { assert (G : forall indices accum,
                 In i indices ->
                 exists m', sampleFrames env img accum indices = ([], Throws m')).
      { induction indices as [|j rest IH]; intros accum Hin; [destruct Hin|].
        destruct Hin as [Hj|Hj].
        - subst j. cbn [sampleFrames]. unfold bind, sample.
          unfold readFrame in Hr.
          assert (Hn : no_image (if (i =? 0)%nat then Some img
                                 else shot (frame env i)) = false).
          { destruct (i =? 0)%nat; [cbn; now apply String.eqb_neq|].
            cbn in Hr. now apply negb_true_iff in Hr. }
          rewrite Hn, Hd. eexists. reflexivity.
        - cbn [sampleFrames]. unfold bind.
          pose proof (sample_silent env img accum j) as Sj.
          destruct (sample env img accum j) as [t [a|m']]; cbn [fst] in Sj; subst t.
          + destruct (IH a Hj) as (m' & E). rewrite E. eexists. reflexivity.
          + eexists. reflexivity. }
      apply G. apply in_seq. lia. }
    destruct T as (m' & T).
    rewrite (background_failed env img _ _ _ _ T). split; reflexivity.
Qed.

Lemma background_failures_are_silent_witness :
  errorsShown (@captureAndDetect exampleHost Examples.remoteSad) = [].
Proof.
  refine (proj1 (background_failures_are_silent exampleHost Examples.remoteSad Examples.photo
                   eq_refl eq_refl _ eq_refl)).
  discriminate.
Defined.
End RunProperties.

(** ** The stages of the estimators *)

Section Stages.
Import JS Eff CameraCapture Spec.

Lemma Math_max_ge a b :
  is_nan a = false -> is_nan b = false ->
  (a <=? Math_max a b) = true /\ (b <=? Math_max a b) = true.
Proof.
  intros Na Nb. unfold Math_max. rewrite Na, Nb. cbn [orb].
  destruct (a <? b) eqn:Hab.
  - split; [now apply ltb_leb | now apply leb_refl].
  - destruct (b <? a) eqn:Hba.
    + split; [now apply leb_refl | now apply ltb_leb].
    + destruct (is_neg_zero a).
      * split; [now apply not_ltb_leb | now apply leb_refl].
      * split; [now apply leb_refl | now apply not_ltb_leb].
Qed.

Lemma as_expressions_In k v (o : Scores) :
  In (k, VNumber v) (as_expressions o) -> In (k, v) o.
Proof.
  unfold as_expressions. intros H. apply in_map_iff in H.
  destruct H as ([k' v'] & E & Hin). injection E as -> E.
  assert (v' = v) by congruence. now subst v'.
Qed.

(** X4: whatever the fast detector does (a vector, no face, an error), the
    provisional confidence lies in [[0.01, 0.99]], and the provisional
    label is "neutral" unless it is a label of the vector with a score of
    at least 0.2. *)
Theorem quick_range (det : outcome (option Expressions)) :
  within (snd (quick det)) 0.01 0.99
  /\ (fst (quick det) = "neutral"
      \/ exists es v, det = Returns (Some es)
                      /\ In (fst (quick det), VNumber v) es
                      /\ (0.2 <=? v) = true).
Proof.
  destruct det as [qExpr|m]; [|split; [split; reflexivity | now left]].
  cbn [quick fst snd]. split.
  - rewrite clamp_correct
      by (try apply getTopEmotion_not_nan; reflexivity).
    apply clamp_within; [apply getTopEmotion_not_nan | reflexivity].
  - destruct (0.2 <=? value (getTopEmotion qExpr)) eqn:Le; [|now left].
    destruct qExpr as [es|]; [|discriminate Le].
    destruct (getTopEmotion_cases es)
      as [[R _] | (before & k & v & after & Ees & R & _)];
      rewrite R in Le |- *; cbn [key value] in *; [now left|].
    right. exists es, v. repeat split; auto.
    rewrite Ees. apply in_or_app. right. now left.
Qed.

(** X6: the label and confidence of an averaged vector: the confidence
    lies in [[0, 1]]; the label is "neutral", or it is a label of the vector
    whose averaged score is at least 0.35, and the confidence is then at
    least 0.35 as well. *)
Theorem deepLabel_range (averaged : Scores) :
  within (snd (deepLabel averaged)) 0 1
  /\ (fst (deepLabel averaged) = "neutral"
      \/ exists v, In (fst (deepLabel averaged), v) averaged
                   /\ (0.35 <=? v) = true
                   /\ (0.35 <=? snd (deepLabel averaged)) = true).
Proof.
  unfold deepLabel. cbn [fst snd].
  set (top := getTopEmotion (Some (as_expressions averaged))).
  pose proof (getTopEmotion_not_nan (Some (as_expressions averaged))) as Nv.
  fold top in Nv.
  rewrite clamp_correct by (assumption || reflexivity). split.
  - apply clamp_within; [assumption | reflexivity].
  - destruct (0.35 <=? clamp (value top) 0 1) eqn:Le; [|now left].
    destruct (getTopEmotion_cases (as_expressions averaged))
      as [[R _] | (before & k & v & after & Ees & R & _)];
      fold top in R; rewrite R in Le |- *; cbn [key value] in *; [now left|].
    right. exists v. split; [|split; [|reflexivity]].
    + apply as_expressions_In. rewrite Ees. apply in_or_app. right. now left.
    + unfold clamp in Le.
      destruct (v <=? 0); [discriminate Le|].
      destruct (1 <=? v) eqn:H1; [|exact Le].
      apply (leb_trans _ 1); [reflexivity | exact H1].
Qed.

(** X7: the heuristics leave the label as it is or set it to "sad" or to
    "angry", and they never lower the confidence (the scores read being
    numbers). *)
Theorem heuristics_never_lower (host : Host) (m : Metrics) (exprs : Expressions)
        (label : string) (current : number) :
  let sad := Number (nullish (prop "sad" exprs) (VNumber 0.6)) in
  let angry := Number (nullish (prop "angry" exprs) (VNumber 0.6)) in
  let after := heuristics m exprs (label, current) in
  (fst after = label \/ fst after = "sad" \/ fst after = "angry")
  /\ (is_nan current = false -> is_nan sad = false -> is_nan angry = false ->
        (current <=? snd after) = true).
Proof.
  intros sad angry after. subst after.
  unfold heuristics, sadOverride, angryOverride. fold sad angry. cbn [snd].
  destruct (sadCondition m exprs), (angryCondition m); cbn [fst snd];
    (split; [tauto|]); intros Nc Ns Na.
  - destruct (Math_max_ge current sad Nc Ns) as [L1 _].
    destruct (leb_not_nan _ _ L1) as [_ N1].
    destruct (Math_max_ge (Math_max current sad) angry N1 Na) as [L2 _].
    exact (leb_trans _ _ _ L1 L2).
  - exact (proj1 (Math_max_ge current sad Nc Ns)).
  - exact (proj1 (Math_max_ge current angry Nc Na)).
  - now apply leb_refl.
Qed.

Lemma heuristics_never_lower_witness :
  (0.4 <=? snd (@heuristics exampleHost
                  {| mouthCornerDepression := 0.05; mouthWidthNorm := 0.4;
                     browToEye := 0.04 |}
                  Examples.frownScores ("happy", 0.4))) = true.
Proof.
  exact (proj2 (heuristics_never_lower exampleHost
                  {| mouthCornerDepression := 0.05; mouthWidthNorm := 0.4;
                     browToEye := 0.04 |}
                  Examples.frownScores "happy" 0.4)
               eq_refl eq_refl eq_refl).
Defined.
End Stages.

(** ** The landmark metrics *)

Section LandmarkMetrics.
Import JS Eff CameraCapture Spec.

Lemma at_Some_bound (arr : list Point) i p :
  at_ arr i = Some p -> (0 <= i < Z.of_nat (List.length arr))%Z.
Proof.
  unfold at_. destruct (i <? 0)%Z eqn:E; [discriminate|].
  intros H. apply Z.ltb_ge in E.
  assert (Hn : nth_error arr (Z.to_nat i) <> None) by congruence.
  apply nth_error_Some in Hn. lia.
Qed.

Lemma at_in_bound (arr : list Point) i :
  (0 <= i < Z.of_nat (List.length arr))%Z -> exists p, at_ arr i = Some p.
Proof.
  intros H. unfold at_.
  replace (i <? 0)%Z with false by (symmetry; apply Z.ltb_ge; lia).
  destruct (nth_error arr (Z.to_nat i)) as [p|] eqn:E; [now exists p|].
  apply nth_error_None in E. lia.
Qed.

Lemma or_point_Some a b p :
  or_point a b = Some p -> a = Some p \/ b = Some p.
Proof. destruct a; cbn; auto. Qed.

(** X8: the metrics are computed exactly when the landmark groups hold the
    points that are read without a fallback: one point of the left eye,
    four of the right eye, three of the mouth and one of the left brow (the
    fallbacks [mouth[3]] and [mouth[9]] never help).  With fewer points the
    [TypeError] is caught and the result of the averaging stands. *)
Theorem metrics_defined_iff (host : Host) (lm : Landmarks) :
  ((exists m, metrics lm = Some m)
   <-> (1 <= List.length (getLeftEye lm)
        /\ 4 <= List.length (getRightEye lm)
        /\ 3 <= List.length (getMouth lm)
        /\ 1 <= List.length (getLeftEyeBrow lm))%nat)
  /\ (forall env exprs final,
        landmarkDetection env = Returns (Some (lm, exprs)) ->
        ~ (1 <= List.length (getLeftEye lm)
           /\ 4 <= List.length (getRightEye lm)
           /\ 3 <= List.length (getMouth lm)
           /\ 1 <= List.length (getLeftEyeBrow lm))%nat ->
        refine env final = final).
Proof.
  assert (Fwd : forall m, metrics lm = Some m ->
                (1 <= List.length (getLeftEye lm)
                 /\ 4 <= List.length (getRightEye lm)
                 /\ 3 <= List.length (getMouth lm)
                 /\ 1 <= List.length (getLeftEyeBrow lm))%nat).
  { intros m. unfold metrics, half.
    set (L := Z.of_nat (List.length (getMouth lm))).
    set (B := Z.of_nat (List.length (getLeftEyeBrow lm))).
    destruct (at_ (getLeftEye lm) 0) as [le0|] eqn:E1; [|discriminate].
    destruct (at_ (getRightEye lm) 3) as [re3|] eqn:E2; [|discriminate].
    destruct (at_ (getMouth lm) 0) as [lc|] eqn:E3; [|discriminate].
    destruct (at_ (getMouth lm) (L - 1)) as [rc|] eqn:E4; [|discriminate].
    destruct (or_point (at_ (getMouth lm) (L / 2 - 1)) (at_ (getMouth lm) 3))
      as [tl|] eqn:E5; [|discriminate].
    destruct (or_point (at_ (getMouth lm) (L / 2 + 1)) (at_ (getMouth lm) 9))
      as [bl|] eqn:E6; [|discriminate].
    destruct (at_ (getLeftEyeBrow lm) (B / 2)) as [br|] eqn:E7; [|discriminate].
    intros _.
    apply at_Some_bound in E1, E2, E7.
    apply or_point_Some in E6.
    assert (H3 : (3 <= L)%Z).
    { pose proof (Z.div_mod L 2 ltac:(lia)) as Dm.
      pose proof (Z.mod_pos_bound L 2 ltac:(lia)) as Mb.
      destruct E6 as [E6|E6]; apply at_Some_bound in E6; fold L in E6; lia. }
    subst L B.
    pose proof (Z.div_mod (Z.of_nat (List.length (getLeftEyeBrow lm))) 2 ltac:(lia)).
    pose proof (Z.mod_pos_bound (Z.of_nat (List.length (getLeftEyeBrow lm))) 2
                  ltac:(lia)).
    lia. }
  split; [split|].
  - intros [m Hm]. exact (Fwd m Hm).
  - intros (H1 & H2 & H3 & H4). unfold metrics, half.
    set (L := Z.of_nat (List.length (getMouth lm))).
    set (B := Z.of_nat (List.length (getLeftEyeBrow lm))).
    pose proof (Z.div_mod L 2 ltac:(lia)) as Dm.
    pose proof (Z.mod_pos_bound L 2 ltac:(lia)) as Mb.
    pose proof (Z.div_mod B 2 ltac:(lia)) as Dm'.
    pose proof (Z.mod_pos_bound B 2 ltac:(lia)) as Mb'.
    destruct (at_in_bound (getLeftEye lm) 0 ltac:(lia)) as [p1 ->].
    destruct (at_in_bound (getRightEye lm) 3 ltac:(lia)) as [p2 ->].
    destruct (at_in_bound (getMouth lm) 0 ltac:(lia)) as [p3 ->].
    destruct (at_in_bound (getMouth lm) (L - 1) ltac:(subst L; lia)) as [p4 ->].
    destruct (at_in_bound (getMouth lm) (L / 2 - 1) ltac:(subst L; lia)) as [p5 ->].
    destruct (at_in_bound (getMouth lm) (L / 2 + 1) ltac:(subst L; lia)) as [p6 ->].
    destruct (at_in_bound (getLeftEyeBrow lm) (B / 2) ltac:(subst B; lia)) as [p7 ->].
    cbn [or_point]. eexists. reflexivity.
  - intros env exprs final Hd Hn. unfold refine. rewrite Hd.
    destruct (fullModelsLoaded env); [|reflexivity].
    destruct (metrics lm) as [m|] eqn:Hm; [|reflexivity].
    elim Hn. exact (Fwd m eq_refl).
Qed.

Lemma metrics_defined_iff_witness :
  exists m, @metrics exampleHost Examples.frown = Some m.
Proof.
  apply (proj2 (proj1 (metrics_defined_iff exampleHost Examples.frown))).
  cbn. lia.
Defined.
End LandmarkMetrics.

(** ** The classifier route, alone and with its client *)

Section RouteShape.
Import JS OpenAIClassify Spec.
Context {host : Host}.

(** A response is built from an upstream response, or it is one of the
    error bodies. *)
Lemma handle_shape env :
  (exists parse, handleOpenAIClassify env = answer parse)
  \/ ((status (handleOpenAIClassify env) = 400%nat
       \/ status (handleOpenAIClassify env) = 500%nat)
      /\ exists message, json (handleOpenAIClassify env) = Error message).
Proof.
  unfold handleOpenAIClassify.
  destruct (body env) as [b|]; [|left; now exists (Throws "")].
  destruct (truthy (image b)); cbn [negb];
    [|right; split; [now left | eexists; reflexivity]].
  destruct (no_key _); [right; split; [now right | eexists; reflexivity]|].
  destruct (vision env) as [m|p]; [|left; now exists p].
  destruct (truthy (expressions b));
    [|right; split; [now right | eexists; reflexivity]].
  destruct (text env) as [m'|p]; [|left; now exists p].
  right; split; [now right | eexists; reflexivity].
Qed.

Lemma allowed_nonempty e : In e allowed -> e <> "".
Proof.
  intros H. repeat (destruct H as [<-|H]; [discriminate|]). destruct H.
Qed.

Lemma lower_ascii_idem c : lower_ascii (lower_ascii c) = lower_ascii c.
Proof. destruct c as [[] [] [] [] [] [] [] []]; reflexivity. Qed.

Lemma toLowerCase_idem s : toLowerCase (toLowerCase s) = toLowerCase s.
Proof.
  induction s as [|c s IH]; [reflexivity|].
  cbn [toLowerCase]. now rewrite lower_ascii_idem, IH.
Qed.

Lemma toLowerCase_empty s : String.eqb (toLowerCase s) "" = String.eqb s "".
Proof. destruct s; reflexivity. Qed.
End RouteShape.

Section RouteProperties.
Import JS OpenAIClassify Spec.

(** X10: whatever the request and the upstream calls, the route answers
    either [200] with an emotion among the seven labels and a confidence in
    [[0, 1]], or [400] or [500] with an error body; a request without a
    body gets the [200] fallback. *)
Theorem route_responses (host : Host) (env : Env) :
  let r := handleOpenAIClassify env in
  ((status r = 200%nat
    /\ exists e c note, json r = Classified e c note /\ In e allowed /\ within c 0 1)
   \/ ((status r = 400%nat \/ status r = 500%nat)
       /\ exists message, json r = Error message))
  /\ (body env = None -> r = fallback).
Proof.
  cbv zeta. split.
  - destruct (handle_shape env) as [[p E] | H]; [left | now right].
    rewrite E. apply answer_ok.
  - intros Hb. unfold handleOpenAIClassify. now rewrite Hb.
Qed.

Lemma route_responses_witness :
  @handleOpenAIClassify exampleHost
    {| body := None; OPENAI_API_KEY := None;
       vision := Fails "unreachable"; text := Fails "unreachable" |}
  = fallback.
Proof.
  exact (proj2 (route_responses exampleHost
                  {| body := None; OPENAI_API_KEY := None;
                     vision := Fails "unreachable"; text := Fails "unreachable" |})
               eq_refl).
Defined.

(** X11: sanitizing is insensitive to case and idempotent on the emotion:
    an emotion and its lower-cased form are sanitized to the same label,
    and a sanitized emotion is sanitized to itself. *)
Theorem sanitizeEmotion_stable (host : Host) :
  (forall s, toLowerCase (toLowerCase s) = toLowerCase s)
  /\ (forall e c c',
        sanitizeEmotion {| emotion := VString (toLowerCase e); confidence := c |}
        = sanitizeEmotion {| emotion := VString e; confidence := c' |})
  /\ (forall parsed c,
        sanitizeEmotion {| emotion := VString (sanitizeEmotion parsed);
                           confidence := c |}
        = sanitizeEmotion parsed).
Proof.
  split; [exact toLowerCase_idem|]. split.
  - intros e c c'. unfold sanitizeEmotion, or_else. cbn [emotion truthy].
    rewrite toLowerCase_empty.
    destruct (String.eqb e ""); cbn [negb String_]; [reflexivity|].
    now rewrite toLowerCase_idem.
  - intros parsed c.
    pose proof (sanitizeEmotion_allowed parsed) as Hin.
    set (s := sanitizeEmotion parsed) in *. clearbody s.
    repeat (destruct Hin as [<-|Hin]; [reflexivity|]). destruct Hin.
Qed.
End RouteProperties.

Section EndToEnd.
Import JS Eff CameraCapture Spec.

(** X12: the client and the route together.  When the label is "neutral"
    and the classifier route answers the request, the client adopts the
    route's label, with confidence max(current, c), exactly when the route
    answered [200] with a confidence [c] of at least 0.2, and keeps
    "neutral" otherwise ([400], [500], a smaller confidence); either way
    the label that comes out is one of the seven labels. *)
Theorem classification_end_to_end (host : Host) (server : OpenAIClassify.Env)
        (env : Env) img averaged (current : number) :
  classify env = Http.classifyFetch (OpenAIClassify.handleOpenAIClassify server) ->
  let r := OpenAIClassify.handleOpenAIClassify server in
  let out := snd (remoteFallback env img averaged ("neutral", current)) in
  (forall e c note,
      OpenAIClassify.json r = OpenAIClassify.Classified e c note ->
      (0.2 <=? c) = true ->
      out = Returns (e, Math_max current c))
  /\ (forall e c note,
        OpenAIClassify.json r = OpenAIClassify.Classified e c note ->
        (0.2 <=? c) = false ->
        out = Returns ("neutral", current))
  /\ (OpenAIClassify.status r <> 200%nat -> out = Returns ("neutral", current))
  /\ (exists e c, out = Returns (e, c) /\ In e OpenAIClassify.allowed).
Proof.
  intros Hc r out. subst out. rewrite remoteFallback_run, Hc. fold r.
  cbn [fst snd String.eqb Ascii.eqb Bool.eqb]. unfold Http.classifyFetch. fold r.
  assert (Neutral : In "neutral" OpenAIClassify.allowed) by (cbn; tauto).
  destruct (handle_shape server) as [[p E] | [St [m Em]]]; fold r in E || fold r in St, Em.
  - destruct (answer_ok p) as (S200 & e0 & c0 & n0 & J & Hin & [_ Hhi]).
    rewrite <- E in S200, J. rewrite S200, J. cbn [Http.ok Nat.leb andb].
    cbn [data_emotion data_confidence nullish Number String_ truthy].
    replace (negb (String.eqb e0 "")) with true
      by (symmetry; apply negb_true_iff, String.eqb_neq, allowed_nonempty, Hin).
    cbn [andb].
    destruct (0.2 <=? c0) eqn:Lo.
    + rewrite (clamp_unit_id c0 Lo Hhi), Lo. repeat split.
      * intros e c note [= <- <- _] _. reflexivity.
      * intros e c note [= <- <- _] F. congruence.
      * intros N. now elim N.
      * now exists e0, (Math_max current c0).
    + rewrite (clamp_unit_low c0 Lo). repeat split.
      * intros e c note [= <- <- _] T. congruence.
      * now exists "neutral", current.
  - rewrite Em.
    replace (Http.ok (OpenAIClassify.status r)) with false
      by (destruct St as [-> | ->]; reflexivity).
    repeat split; try (intros e c note [=]).
    now exists "neutral", current.
Qed.

Lemma classification_end_to_end_witness :
  snd (@remoteFallback exampleHost
         (Scenarios.servedBy
            (@OpenAIClassify.handleOpenAIClassify exampleHost
               ClassifyExamples.overConfident))
         Examples.photo [] ("neutral", 0.3))
  = Returns ("happy", Math_max 0.3 1).
Proof.
  exact (proj1 (classification_end_to_end exampleHost ClassifyExamples.overConfident
                  (Scenarios.servedBy
                     (@OpenAIClassify.handleOpenAIClassify exampleHost
                        ClassifyExamples.overConfident))
                  Examples.photo [] 0.3 eq_refl)
               "happy" 1 None eq_refl eq_refl).
Defined.
End EndToEnd.

(** ** The suggestion provider *)

Section SuggestionShape.
Import JS Eff EmotionResult Spec Served.
Context {host : Host}.

(** The events of [run]: the requests, then either the suggestion (set,
    and reported when the prop is passed) or the error, between raising
    and lowering [loading]. *)
Lemma run_shape env emotion :
  run env emotion
  = ([SetLoading true; SetError None]
     ++ fst (suggestion env emotion)
     ++ match snd (suggestion env emotion) with
        | Returns text =>
            SetMessage text
              :: (if onSuggestionReady env then [OnSuggestionReady text] else [])
        | Throws _ => [SetError (Some failureText)]
        end
     ++ [SetLoading false])%list.
Proof.
  unfold run. destruct (suggestion env emotion) as [t [text|m]];
    [destruct (onSuggestionReady env)|];
    cbn; rewrite <- ?app_assoc; reflexivity.
Qed.

(** [suggestion] emits requests only. *)
Lemma suggestion_requests env emotion :
  fst (suggestion env emotion)
  = map Fetched
      (if String.eqb emotion "sad" then ["/api/joke"; "/api/joke"]
       else if String.eqb emotion "angry" then ["/api/quote"]
       else []).
Proof.
  unfold suggestion, fetch.
  destruct (String.eqb emotion "sad").
  - destruct (jokeA env) as [m|okA [ja|ma]], (jokeB env) as [m'|okB [jb|mb]];
      try reflexivity; destruct okA, okB; reflexivity.
  - destruct (String.eqb emotion "angry").
    + destruct (quote env) as [m|[|] [q|m]]; reflexivity.
    + destruct (String.eqb emotion "happy"); reflexivity.
Qed.

Lemma step_requests urls st : fold_left step (map Fetched urls) st = st.
Proof. induction urls as [|u urls IH]; [reflexivity | exact IH]. Qed.

Lemma requests_map urls : requests (map Fetched urls) = urls.
Proof.
  unfold requests. induction urls as [|u urls IH]; [reflexivity|].
  cbn [map flat_map app]. now rewrite IH.
Qed.

Lemma handleJoke_yields u :
  ProxyRoutes.handleJoke u
  = match jokesOf u with
    | j :: _ => {| ProxyRoutes.status := 200; ProxyRoutes.json := ProxyRoutes.Joke j |}
    | [] => {| ProxyRoutes.status := 502;
               ProxyRoutes.json :=
                 ProxyRoutes.Error match u with
                                   | Returns _ => "No joke returned"
                                   | Throws _ => "Failed to fetch joke"
                                   end |}
    end.
Proof.
  destruct u as [j|m]; [|reflexivity].
  unfold ProxyRoutes.handleJoke, jokesOf, or_else.
  destruct (truthy j) eqn:T; [now rewrite T | reflexivity].
Qed.

Lemma quote_text_nonempty q a :
  String.eqb (String_ q ++ " — " ++ String_ a) "" = false.
Proof. destruct (String_ q); reflexivity. Qed.
End SuggestionShape.

Section SuggestionProperties.
Import JS Eff EmotionResult Spec Served.

(** X13: the outcome of [run], for every emotion and from every state.
    Afterwards [loading] is off, and either a suggestion was set and is
    displayed, with no error left, and it was reported through
    [onSuggestionReady] once when that prop is passed and not at all when
    it is not (the page passes none); or the error text is displayed, the
    previous message is kept and nothing was reported. *)
Theorem suggestion_or_error (host : Host) (env : Env) (emotion : string) (st : State) :
  let st' := after st env emotion in
  let reported :=
    flat_map (fun e => match e with OnSuggestionReady t => [t] | _ => [] end)
             (run env emotion) in
  loading st' = false
  /\ ((exists text,
         render st' = Suggestion text /\ message st' = text /\ error st' = None
         /\ reported = if onSuggestionReady env then [text] else [])
      \/ (render st' = Failure failureText /\ message st' = message st
          /\ reported = [])).
Proof.
  cbv zeta. unfold after. rewrite run_shape, suggestion_requests.
  set (urls := if String.eqb emotion "sad" then _ else _).
  rewrite !flat_map_app, !fold_left_app, step_requests.
  assert (Q : flat_map (fun e => match e with OnSuggestionReady t => [t] | _ => [] end)
                       (map Fetched urls) = []).
  { induction urls as [|u urls IH]; [reflexivity | exact IH]. }
  rewrite Q.
  destruct (snd (suggestion env emotion)) as [text|m];
    [destruct (onSuggestionReady env)|]; cbn.
  - split; [reflexivity|]. left. exists text. repeat split.
  - split; [reflexivity|]. left. exists text. repeat split.
  - split; [reflexivity|]. right. repeat split.
Qed.

(** X14: the requests of [run] depend on the emotion alone: two to the
    joke route for "sad" (both are sent, whatever the first one does), one
    to the quote route for "angry", none otherwise; and without a request
    the static text is displayed, for "happy" and for every other emotion. *)
Theorem requests_by_emotion (host : Host) (env : Env) (emotion : string) (st : State) :
  requests (run env emotion)
  = (if String.eqb emotion "sad" then ["/api/joke"; "/api/joke"]
     else if String.eqb emotion "angry" then ["/api/quote"]
     else [])
  /\ (emotion <> "sad" -> emotion <> "angry" ->
        render (after st env emotion)
        = Suggestion (VString (if String.eqb emotion "happy"
                               then "Keep smiling! 🌞"
                               else "I hope you’re doing well ❤️"))).
Proof.
  split.
  - rewrite run_shape, suggestion_requests. unfold requests.
    rewrite !flat_map_app. fold (requests (map Fetched
      (if String.eqb emotion "sad" then ["/api/joke"; "/api/joke"]
       else if String.eqb emotion "angry" then ["/api/quote"] else []))).
    rewrite requests_map.
    destruct (snd (suggestion env emotion)); [destruct (onSuggestionReady env)|];
      cbn; now rewrite app_nil_r.
  - intros Hs Ha. apply String.eqb_neq in Hs, Ha.
    unfold after, run, suggestion. rewrite Hs, Ha.
    destruct (onSuggestionReady env), (String.eqb emotion "happy"); reflexivity.
Qed.

Lemma requests_by_emotion_witness :
  render (@after exampleHost initial SuggestionExamples.quoteDown "happy")
  = Suggestion (VString "Keep smiling! 🌞").
Proof.
  refine (proj2 (requests_by_emotion exampleHost SuggestionExamples.quoteDown
                   "happy" initial) _ _); discriminate.
Defined.

(** X15: the joke route.  It answers [200] with the joke exactly when the
    upstream call yields a truthy joke, and [502] with an error body in
    every other case.  Served by it, the suggestion for "sad" never fails:
    it is the preamble, an empty line, and then the jokes that were
    obtained, numbered from 1 in the order of the two requests and
    separated by an empty line, or "Here's a smile for you!" when none
    was. *)
Theorem sad_suggestion_served (host : Host) (jokeA jokeB : outcome any)
        (quote : outcome ProxyRoutes.Data) (st : State) :
  let LF := String "010"%char "" in
  (forall u,
      (ProxyRoutes.status (ProxyRoutes.handleJoke u) = 200%nat
       <-> exists j, u = Returns j /\ truthy j = true)
      /\ (ProxyRoutes.status (ProxyRoutes.handleJoke u) = 502%nat
          <-> ~ exists j, u = Returns j /\ truthy j = true))
  /\ (forall j, truthy j = true ->
        ProxyRoutes.handleJoke (Returns j)
        = {| ProxyRoutes.status := 200; ProxyRoutes.json := ProxyRoutes.Joke j |})
  /\ (forall u, (~ exists j, u = Returns j /\ truthy j = true) ->
        exists message,
          ProxyRoutes.handleJoke u
          = {| ProxyRoutes.status := 502; ProxyRoutes.json := ProxyRoutes.Error message |})
  /\ render (after st (Served.env jokeA jokeB quote) "sad")
     = Suggestion
         (VString
            ("Hey — I can tell this is a tough moment. Here are a couple of light jokes to hopefully lift you up:"
             ++ LF ++ LF
             ++ match jokesOf jokeA, jokesOf jokeB with
                | a :: _, b :: _ =>
                    "1. " ++ String_ a ++ LF ++ LF ++ "2. " ++ String_ b
                | a :: _, [] | [], a :: _ => "1. " ++ String_ a
                | [], [] => "Here's a smile for you!"
                end)).
Proof.
  cbv zeta.
  assert (Yes : forall j, truthy j = true ->
                  ProxyRoutes.handleJoke (Returns j)
                  = {| ProxyRoutes.status := 200;
                       ProxyRoutes.json := ProxyRoutes.Joke j |}).
  { intros j T. rewrite handleJoke_yields. cbn [jokesOf]. now rewrite T. }
  assert (No : forall u, (~ exists j, u = Returns j /\ truthy j = true) ->
                 exists message,
                   ProxyRoutes.handleJoke u
                   = {| ProxyRoutes.status := 502;
                        ProxyRoutes.json := ProxyRoutes.Error message |}).
  { intros u N. rewrite handleJoke_yields.
    destruct u as [j|m]; cbn [jokesOf]; [|eexists; reflexivity].
    destruct (truthy j) eqn:T; [|eexists; reflexivity].
    elim N. now exists j. }
  split; [|split; [exact Yes | split; [exact No|]]].
  - intros u.
    assert (D : (exists j, u = Returns j /\ truthy j = true)
                \/ ~ (exists j, u = Returns j /\ truthy j = true)).
    { destruct u as [j|m]; [destruct (truthy j) eqn:T|].
      - left. now exists j.
      - right. intros (j' & [= <-] & T'). congruence.
      - right. intros (j' & [=] & _). }
    destruct D as [(j & -> & T) | N].
    + rewrite (Yes j T). cbn [ProxyRoutes.status]. split.
      * split; [intros _; now exists j | reflexivity].
      * split; [discriminate|]. intros N. elim N. now exists j.
    + destruct (No u N) as [message E]. rewrite E. cbn [ProxyRoutes.status].
      split; [split; [discriminate | intros H; now elim N] | tauto].
  - unfold after, run, suggestion, Served.env.
    cbn [String.eqb Ascii.eqb Bool.eqb EmotionResult.jokeA EmotionResult.jokeB
         EmotionResult.onSuggestionReady].
    rewrite !handleJoke_yields.
    destruct jokeA as [ja|ma], jokeB as [jb|mb]; cbn [jokesOf];
      try destruct (truthy ja) eqn:Ta; try destruct (truthy jb) eqn:Tb;
      cbv [Http.proxyFetch Http.ok ProxyRoutes.status ProxyRoutes.json Nat.leb andb
           trace bind emit ret try_catch finally await throw jokeOf fst snd app];
      cbn [filter truthy]; rewrite ?Ta, ?Tb; cbn [filter truthy];
      rewrite ?Ta, ?Tb; reflexivity.
Qed.

Lemma sad_suggestion_served_witness :
  ProxyRoutes.handleJoke (Returns (VString "Knock, knock."))
  = {| ProxyRoutes.status := 200;
       ProxyRoutes.json := ProxyRoutes.Joke (VString "Knock, knock.") |}.
Proof.
  exact (proj1 (proj2 (sad_suggestion_served exampleHost
                         (Throws "timeout") (Throws "timeout") (Throws "timeout")
                         initial))
               (VString "Knock, knock.") eq_refl).
Defined.

(** The text of the suggestion when both requests bring a joke. *)
Example sad_suggestion_two_jokes :
  render (@after exampleHost initial
            (@Served.env exampleHost (Returns (VString "A")) (Returns (VString "B"))
               (Throws "timeout"))
            "sad")
  = Suggestion
      (VString "Hey — I can tell this is a tough moment. Here are a couple of light jokes to hopefully lift you up:

1. A

2. B").
Proof. reflexivity. Qed.

(** X16: the quote route.  It answers [200] exactly when the item it reads
    from the upstream response is truthy, with the text "<q> — <a>" built
    from the item's two properties, whatever they are, and [502]
    otherwise.  Served by it, the suggestion for "angry" is that text, and
    the error text when the route answers [502]: a quote is never missing
    from a [200] of this route. *)
Theorem angry_suggestion_served (host : Host) (jokeA jokeB : outcome any)
        (quote : outcome ProxyRoutes.Data) (st : State) :
  (ProxyRoutes.status (ProxyRoutes.handleQuote quote) = 200%nat
   <-> exists q a, itemOf quote = ProxyRoutes.Truthy q a)
  /\ (forall q a, itemOf quote = ProxyRoutes.Truthy q a ->
        ProxyRoutes.handleQuote quote
        = {| ProxyRoutes.status := 200;
             ProxyRoutes.json := ProxyRoutes.Quote (String_ q ++ " — " ++ String_ a) |}
        /\ render (after st (Served.env jokeA jokeB quote) "angry")
           = Suggestion (VString (String_ q ++ " — " ++ String_ a)))
  /\ (itemOf quote = ProxyRoutes.Falsy ->
        ProxyRoutes.status (ProxyRoutes.handleQuote quote) = 502%nat
        /\ render (after st (Served.env jokeA jokeB quote) "angry")
           = Failure failureText).
Proof.
  assert (Ok : forall q a,
             itemOf quote = ProxyRoutes.Truthy q a ->
             ProxyRoutes.handleQuote quote
             = {| ProxyRoutes.status := 200;
                  ProxyRoutes.json :=
                    ProxyRoutes.Quote (String_ q ++ " — " ++ String_ a) |}).
  { intros q a Hi. unfold ProxyRoutes.handleQuote, itemOf in *.
    destruct quote as [[items|item]|m]; try discriminate Hi; rewrite Hi;
      now rewrite quote_text_nonempty. }
  assert (Ko : itemOf quote = ProxyRoutes.Falsy ->
               ProxyRoutes.status (ProxyRoutes.handleQuote quote) = 502%nat
               /\ exists m, ProxyRoutes.json (ProxyRoutes.handleQuote quote)
                            = ProxyRoutes.Error m).
  { intros Hi. unfold ProxyRoutes.handleQuote, itemOf in *.
    destruct quote as [[items|item]|m]; try rewrite Hi;
      (split; [reflexivity | eexists; reflexivity]). }
  split; [|split].
  - split.
    + intros S. destruct (itemOf quote) as [|q a] eqn:Hi; [|now exists q, a].
      rewrite (proj1 (Ko eq_refl)) in S. discriminate S.
    + intros (q & a & Hi). now rewrite (Ok q a Hi).
  - intros q a Hi. split; [exact (Ok q a Hi)|].
    unfold after, run, suggestion, fetch, Served.env.
    cbn [String.eqb Ascii.eqb Bool.eqb EmotionResult.quote].
    rewrite (Ok q a Hi).
    cbv [Http.proxyFetch Http.ok ProxyRoutes.status ProxyRoutes.json Nat.leb andb
         trace bind emit ret try_catch finally await throw fst snd negb
         or_else truthy].
    rewrite quote_text_nonempty. reflexivity.
  - intros Hi. destruct (Ko Hi) as (S & m & J). split; [exact S|].
    unfold after, run, suggestion, fetch, Served.env.
    cbn [String.eqb Ascii.eqb Bool.eqb EmotionResult.quote].
    unfold Http.proxyFetch. rewrite S, J. reflexivity.
Qed.

Lemma angry_suggestion_served_witness :
  render (@after exampleHost initial
            (@Served.env exampleHost (Throws "") (Throws "")
               (Returns (ProxyRoutes.IsArray
                           [ProxyRoutes.Truthy (VString "Know thyself.")
                                               (VString "Socrates")])))
            "angry")
  = Suggestion (VString "Know thyself. — Socrates").
Proof.
  exact (proj2 (proj1 (proj2 (angry_suggestion_served exampleHost
                  (Throws "") (Throws "")
                  (Returns (ProxyRoutes.IsArray
                              [ProxyRoutes.Truthy (VString "Know thyself.")
                                                  (VString "Socrates")]))
                  initial))
               (VString "Know thyself.") (VString "Socrates") eq_refl)).
Defined.
End SuggestionProperties.

(** ** The page and the feedback form *)

Section PageState.
Import JS IndexPage.

Lemma getItem_setItem_same k v st : getItem k (setItem k v st) = Some v.
Proof.
  induction st as [|[k' v'] st IH]; cbn.
  - now rewrite String.eqb_refl.
  - destruct (String.eqb k k') eqn:E; cbn; rewrite ?String.eqb_refl, ?E; auto.
Qed.

Lemma getItem_setItem_other k k' v st :
  k <> k' -> getItem k (setItem k' v st) = getItem k st.
Proof.
  intros N. induction st as [|[k1 v1] st IH]; cbn.
  - apply String.eqb_neq in N. now rewrite N.
  - destruct (String.eqb k' k1) eqn:E; cbn.
    + apply String.eqb_eq in E. subst k1.
      apply String.eqb_neq in N. now rewrite N.
    + now rewrite IH.
Qed.

Lemma themeEffect_spec p :
  result (themeEffect p) = result p
  /\ theme (themeEffect p) = theme p
  /\ dark (themeEffect p) = String.eqb (theme p) "dark"
  /\ getItem "theme" (storage (themeEffect p)) = Some (theme p)
  /\ getItem "moodmate:lastEmotion" (storage (themeEffect p))
     = getItem "moodmate:lastEmotion" (storage p).
Proof.
  unfold themeEffect. cbn [result theme dark storage].
  rewrite getItem_setItem_same, getItem_setItem_other by discriminate.
  repeat split.
Qed.

Lemma resultEffect_spec p :
  result (resultEffect p) = result p
  /\ theme (resultEffect p) = theme p
  /\ dark (resultEffect p) = dark p
  /\ getItem "theme" (storage (resultEffect p)) = getItem "theme" (storage p)
  /\ getItem "moodmate:lastEmotion" (storage (resultEffect p))
     = match result p with
       | Some r =>
           if String.eqb (CameraCapture.emotion r) ""
           then getItem "moodmate:lastEmotion" (storage p)
           else Some (CameraCapture.emotion r)
       | None => getItem "moodmate:lastEmotion" (storage p)
       end.
Proof.
  unfold resultEffect. cbn [result theme dark storage].
  destruct (result p) as [r|]; [|repeat split].
  destruct (String.eqb (CameraCapture.emotion r) ""); cbn [negb];
    rewrite ?getItem_setItem_same, ?getItem_setItem_other by discriminate;
    repeat split.
Qed.

Lemma update_theme p a :
  theme (update p a)
  = match a with
    | ToggleTheme => if String.eqb (theme p) "light" then "dark" else "light"
    | _ => theme p
    end.
Proof. destruct a; reflexivity. Qed.

Lemma update_mood p a :
  getItem "moodmate:lastEmotion" (storage (update p a))
  = match a with
    | Detected r =>
        if String.eqb (CameraCapture.emotion r) ""
        then getItem "moodmate:lastEmotion" (storage p)
        else Some (CameraCapture.emotion r)
    | _ => getItem "moodmate:lastEmotion" (storage p)
    end.
Proof.
  destruct a; unfold update;
    match goal with
    | |- context [resultEffect ?q] =>
        destruct (resultEffect_spec q) as (_ & _ & _ & _ & M)
    | |- context [themeEffect ?q] =>
        destruct (themeEffect_spec q) as (_ & _ & _ & _ & M)
    end; exact M.
Qed.

(** The storage and the document agree with the theme. *)
Lemma update_written p a :
  getItem "theme" (storage p) = Some (theme p) ->
  dark p = String.eqb (theme p) "dark" ->
  getItem "theme" (storage (update p a)) = Some (theme (update p a))
  /\ dark (update p a) = String.eqb (theme (update p a)) "dark".
Proof.
  intros Hs Hd. destruct a; unfold update;
    match goal with
    | |- context [resultEffect ?q] =>
        destruct (resultEffect_spec q) as (_ & T & D & G & _)
    | |- context [themeEffect ?q] =>
        destruct (themeEffect_spec q) as (_ & T & D & G & _)
    end; rewrite T, D, G; cbn [theme dark storage]; auto.
Qed.

Lemma mount_written st :
  getItem "theme" (storage (mount st)) = Some (theme (mount st))
  /\ dark (mount st) = String.eqb (theme (mount st)) "dark"
  /\ getItem "moodmate:lastEmotion" (storage (mount st))
     = getItem "moodmate:lastEmotion" st.
Proof.
  unfold mount.
  match goal with |- context [resultEffect ?q] =>
    destruct (resultEffect_spec q) as (_ & T & D & G & M) end.
  match goal with |- context [themeEffect ?q] =>
    destruct (themeEffect_spec q) as (_ & T' & D' & G' & M') end.
  rewrite T, D, G, M, T', D', G', M'. cbn [result theme storage]. repeat split.
Qed.

Lemma session_mood actions : forall p,
  getItem "moodmate:lastEmotion" (storage (fold_left update actions p))
  = lastDetected actions (getItem "moodmate:lastEmotion" (storage p)).
Proof.
  induction actions as [|a actions IH]; intros p; [reflexivity|].
  cbn [fold_left]. rewrite IH, update_mood. destruct a; reflexivity.
Qed.

Lemma session_theme_kept actions : forall p,
  (theme p = "light" \/ theme p = "dark") ->
  theme (fold_left update actions p) = "light"
  \/ theme (fold_left update actions p) = "dark".
Proof.
  induction actions as [|a actions IH]; intros p H; [exact H|].
  cbn [fold_left]. apply IH. rewrite update_theme.
  destruct a; auto. destruct (String.eqb (theme p) "light"); auto.
Qed.

Lemma session_written actions : forall p,
  getItem "theme" (storage p) = Some (theme p) ->
  dark p = String.eqb (theme p) "dark" ->
  getItem "theme" (storage (fold_left update actions p))
  = Some (theme (fold_left update actions p))
  /\ dark (fold_left update actions p)
     = String.eqb (theme (fold_left update actions p)) "dark".
Proof.
  induction actions as [|a actions IH]; intros p Hs Hd; [now split|].
  cbn [fold_left]. now apply IH; apply update_written.
Qed.
End PageState.

Section PageProperties.
Import JS IndexPage.

(** X17: the theme.  At every moment of a session the storage holds the
    current theme and the document has the class "dark" exactly when the
    theme is "dark", although a detection or "Try Again" runs the effect
    of the result only; whatever string was stored at the start, from the
    first toggle on the theme is "light" or "dark", and then two toggles
    in a row bring it back. *)
Theorem theme_persisted (st : Storage) (actions : list action) :
  let p := session st actions in
  getItem "theme" (storage p) = Some (theme p)
  /\ dark p = String.eqb (theme p) "dark"
  /\ (In ToggleTheme actions -> theme p = "light" \/ theme p = "dark")
  /\ (theme p = "light" \/ theme p = "dark" ->
        theme (update (update p ToggleTheme) ToggleTheme) = theme p).
Proof.
  cbv zeta. unfold session.
  destruct (mount_written st) as (G & D & _).
  destruct (session_written actions (mount st) G D) as [W1 W2].
  split; [exact W1|]. split; [exact W2|]. split.
  - clear. generalize (mount st). induction actions as [|a actions IH]; intros p Hin;
      [destruct Hin|].
    destruct Hin as [Ha|Hin].
    + subst a. cbn [fold_left]. apply session_theme_kept.
      rewrite update_theme.
      destruct (String.eqb (theme p) "light"); auto.
    + cbn [fold_left]. now apply IH.
  - intros [E|E]; rewrite !update_theme, E; reflexivity.
Qed.

Lemma theme_persisted_witness :
  theme (session [("theme", "sepia")]
           [Detected {| CameraCapture.emotion := "sad";
                        CameraCapture.imageSrc := Examples.photo;
                        CameraCapture.confidence := 0.5 |};
            ToggleTheme]) = "light"
  \/ theme (session [("theme", "sepia")]
              [Detected {| CameraCapture.emotion := "sad";
                           CameraCapture.imageSrc := Examples.photo;
                           CameraCapture.confidence := 0.5 |};
               ToggleTheme]) = "dark".
Proof.
  apply (proj1 (proj2 (proj2 (theme_persisted [("theme", "sepia")] _)))).
  right. now left.
Defined.

(** X18: the last mood.  At the end of a session the storage holds the
    emotion of the last result that had a non-empty one, and what it held
    at the start when there was none: "Try Again", a theme toggle and a
    result with an empty emotion never change it.  So the next visit
    shows that emotion as the last mood, and none when there is none. *)
Theorem last_mood_persisted (st : Storage) (actions : list action) :
  getItem "moodmate:lastEmotion" (storage (session st actions))
  = lastDetected actions (getItem "moodmate:lastEmotion" st)
  /\ lastEmotion (storage (session st actions))
     = match lastDetected actions (getItem "moodmate:lastEmotion" st) with
       | Some e => e
       | None => ""
       end.
Proof.
  assert (M : getItem "moodmate:lastEmotion" (storage (session st actions))
              = lastDetected actions (getItem "moodmate:lastEmotion" st)).
  { unfold session. rewrite session_mood.
    now rewrite (proj2 (proj2 (mount_written st))). }
  split; [exact M|]. unfold lastEmotion, getItemOr. rewrite M.
  destruct (lastDetected actions _) as [e|]; [|reflexivity].
  destruct (String.eqb e "") eqn:E; [|reflexivity].
  apply String.eqb_eq in E. now subst e.
Qed.
End PageProperties.

Section Feedback.
Import FeedbackForm.

(** X19: the feedback form takes one vote at most.  Whatever is pressed
    and however often, the vote kept and the thanks shown are those of the
    first press, and nothing happens once a vote is in.  [onFeedback] is
    called once, with the first vote, when that prop is passed, and never
    when it is not (the page passes none). *)
Theorem feedback_once (onFeedback : bool) (vs : list vote) :
  presses onFeedback None vs
  = match vs with
    | [] => (None, [])
    | v :: _ => (Some v, if onFeedback then [OnFeedback v] else [])
    end
  /\ (forall v, presses onFeedback (Some v) vs = (Some v, []))
  /\ (forall v rest, vs = v :: rest ->
        render (fst (presses onFeedback None vs)) = render (Some v)
        /\ snd (presses false None vs) = []
        /\ snd (presses true None vs) = [OnFeedback v]).
Proof.
  assert (Done : forall b ws v, presses b (Some v) ws = (Some v, [])).
  { induction ws as [|w ws IH]; intros v; [reflexivity|].
    cbn [presses]. unfold press. destruct v; cbn; now rewrite IH. }
  assert (First : forall b v ws,
             presses b None (v :: ws)
             = (Some v, if b then [OnFeedback v] else [])).
  { intros b v ws. cbn [presses]. unfold press, handle. cbn [render].
    rewrite Done. destruct b; reflexivity. }
  split; [|split; [exact (Done onFeedback vs)|]].
  - destruct vs as [|v vs]; [reflexivity | apply First].
  - intros v rest ->. now rewrite !First.
Qed.

Lemma feedback_once_witness :
  render (fst (presses false None [down; up; up])) = render (Some down)
  /\ snd (presses false None [down; up; up]) = []
  /\ snd (presses true None [down; up; up]) = [OnFeedback down].
Proof.
  exact (proj2 (proj2 (feedback_once false [down; up; up])) down [up; up] eq_refl).
Defined.
End Feedback.
